(** * Embodied-RAG-Finetune: the JSONL splitter and the two transformers

    A shallow embedding of [scripts/split_dataset.py],
    [scripts/transform_to_conversational.py] and
    [scripts/transform_to_standard.py], and the properties of their
    train/test partition, per-record rewriting and error handling.

    Conventions of the embedding.
    - A text file is the list of the lines that iterating over it yields;
      the file system is a finite map from paths to such files.  Directories,
      permissions and encodings are outside the model: a file that exists
      can be read as text, and any path can be opened for writing.
    - Python exceptions are values of [py_error]; a computation that may
      raise returns an [outcome].
    - A Python [float] is a binary64 number, modelled by [spec_float] with
      the operations of the Standard Library's [SpecFloat] at precision 53.
    - The interpreter's library functions the scripts call ([str.strip],
      [json.loads], [json.dumps], [repr] of floats and strings, the
      generator behind [random]) are the fields of a [Runtime]; the
      theorems hold for every runtime, and [Sample.runtime] is one to run
      the scripts on examples.  [json.loads] returns a value or raises:
      [json.JSONDecodeError] on a text that is not JSON, and on some
      texts that are JSON another exception ([ValueError] for an integer
      beyond the digit limit of [int], [RecursionError] for a value
      nested too deep).
    - An [int] is a [Z] and a list has any length. *)

From Stdlib Require Import ZArith List Bool Ascii String Lia Permutation.
From Stdlib Require Import Floats.SpecFloat.
From stdpp Require Import base option list strings gmap.

Local Open Scope string_scope.
Local Open Scope Z_scope.
Local Open Scope list_scope.

(** ** Exceptions and outcomes *)

Inductive py_error : Type :=
  | FileNotFoundError
  | JSONDecodeError
  | AttributeError
  | IndexError
  | ValueError
  | OverflowError
  | RecursionError.

#[global] Instance py_error_eq_dec : EqDecision py_error.
Proof. solve_decision. Defined.

Inductive outcome (A : Type) : Type :=
  | Ok (a : A)
  | Raise (e : py_error).
Arguments Ok {A} a.
Arguments Raise {A} e.

(** [outcome] is the error monad; stdpp's [x ← c; k] sequences it. *)
#[global] Instance outcome_ret : MRet outcome := fun A a => Ok a.
#[global] Instance outcome_bind : MBind outcome := fun A B k c =>
  match c with
  | Ok a => k a
  | Raise e => Raise e
  end.

(** ** JSON values, as [json.loads] builds them

    A [dict] keeps its keys in insertion order, hence the association
    list. *)

#[warnings="-register-all"]
Inductive json : Type :=
  | JNull
  | JBool (b : bool)
  | JInt (n : Z)
  | JFloat (f : spec_float)
  | JStr (s : string)
  | JList (l : list json)
  | JDict (d : list (string * json)).

Definition is_dict (v : json) : bool :=
  match v with JDict _ => true | _ => false end.

(** [d.get(key, default)]. *)
Fixpoint dict_get (d : list (string * json)) (key : string) (default : json) : json :=
  match d with
  | [] => default
  | (k, v) :: d' => if String.eqb k key then v else dict_get d' key default
  end.

Definition has_key (d : list (string * json)) (key : string) : bool :=
  existsb (fun kv => String.eqb (fst kv) key) d.

(** ** The interpreter's library *)

Record Runtime : Type := {
  (** [str.strip()] *)
  strip : string -> string;
  (** [json.loads]: the value, or the exception raised;
      [json.JSONDecodeError] is the one for a text that is not JSON *)
  json_loads : string -> outcome json;
  (** [json.dumps] *)
  json_dumps : json -> string;
  (** [repr] of a float and of a string *)
  float_repr : spec_float -> string;
  str_repr : string -> string;
  (** the state of the module-level generator of [random] *)
  rng : Type;
  (** the state [random.seed(a)] installs *)
  seed_state : Z -> rng;
  (** [_randbelow(n)], for [0 < n] *)
  randbelow : rng -> nat -> nat * rng;
  randbelow_lt : forall g n, (0 < n)%nat -> (fst (randbelow g n) < n)%nat
}.

Definition newline : string := String (Ascii.ascii_of_nat 10) EmptyString.

(** ** Text of a value: [str(v)], which [f"{v}"] inserts *)

Section Formatting.
Context (R : Runtime).

Definition join (sep : string) (parts : list string) : string :=
  match parts with
  | [] => ""
  | p :: ps => fold_left (fun acc q => acc +:+ sep +:+ q) ps p
  end.

Definition digit_char (d : Z) : string :=
  String (Ascii.ascii_of_nat (Z.to_nat (48 + d))) EmptyString.

Fixpoint pos_digits (fuel : nat) (n : Z) (acc : string) : string :=
  match fuel with
  | O => acc
  | S fuel' =>
      if n <? 10 then digit_char n +:+ acc
      else pos_digits fuel' (n / 10) (digit_char (n mod 10) +:+ acc)
  end.

(** [str] of an [int] *)
Definition int_str (n : Z) : string :=
  let a := Z.abs n in
  let body := pos_digits (S (Z.to_nat (Z.log2 a))) a "" in
  if n <? 0 then "-" +:+ body else body.

Fixpoint py_repr (v : json) : string :=
  match v with
  | JNull => "None"
  | JBool true => "True"
  | JBool false => "False"
  | JInt n => int_str n
  | JFloat f => float_repr R f
  | JStr s => str_repr R s
  | JList l => "[" +:+ join ", " (map py_repr l) +:+ "]"
  | JDict d =>
      "{" +:+ join ", " (map (fun kv => str_repr R (fst kv) +:+ ": " +:+ py_repr (snd kv)) d) +:+ "}"
  end.

Definition py_str (v : json) : string :=
  match v with
  | JStr s => s
  | _ => py_repr v
  end.
End Formatting.

(** ** Floats: the arithmetic of [int(n_total * test_ratio)] *)

Definition prec : Z := 53.
Definition emax : Z := 1024.

Definition float_zero : spec_float := S754_zero false.
Definition float_one : spec_float := SFone prec emax.

(** The [int] operand of [int * float] becomes a float first, rounded to
    the nearest even; an [int] beyond the largest float raises. *)
Definition float_of_int (n : Z) : outcome spec_float :=
  match binary_normalize prec emax n 0 false with
  | S754_infinity _ => Raise OverflowError
  | f => Ok f
  end.

(** [int(f)] truncates toward zero. *)
Definition int_of_float (f : spec_float) : outcome Z :=
  match f with
  | S754_nan => Raise ValueError
  | S754_infinity _ => Raise OverflowError
  | S754_zero _ => Ok 0
  | S754_finite s m e => Ok (cond_Zopp s (Z.shiftl (Zpos m) e))
  end.

(** [n_test = int(n_total * test_ratio)] *)
Definition compute_n_test (n_total : nat) (test_ratio : spec_float) : outcome Z :=
  x ← float_of_int (Z.of_nat n_total);
  int_of_float (SFmul prec emax x test_ratio).

(** The mathematical floor of a float, the spec's [floor]: the largest
    integer not above its value.  Not a number and the infinities have
    none. *)
Definition floor_of_float (f : spec_float) : option Z :=
  match f with
  | S754_nan | S754_infinity _ => None
  | S754_zero _ => Some 0
  | S754_finite s m e =>
      let v := cond_Zopp s (Zpos m) in
      Some (if 0 <=? e then v * 2 ^ e else v / 2 ^ (- e))
  end.

(** The floor of the product of an integer and the value of a float,
    computed without rounding: the value of [S754_finite s m e] is the
    rational [(-1)^s * m * 2^e]. *)
Definition exact_floor (n : Z) (r : spec_float) : Z :=
  match r with
  | S754_finite s m e =>
      let v := n * cond_Zopp s (Zpos m) in
      if 0 <=? e then v * 2 ^ e else v / 2 ^ (- e)
  | _ => 0
  end.

(** A binary64 number in the interval [[0, 1]]. *)
Definition unit_ratio (r : spec_float) : bool :=
  valid_binary prec emax r
  && SFleb float_zero r
  && SFleb r float_one.

Definition is_finite (f : spec_float) : bool :=
  match f with
  | S754_zero _ | S754_finite _ _ _ => true
  | _ => false
  end.

(** ** Slices: [data[:k]] and [data[k:]] *)

(** A slice bound is counted from the end when negative and clamped to
    the length of the list. *)
Definition adjust_index (len k : Z) : Z :=
  if k <? 0 then Z.max 0 (k + len) else Z.min k len.

Definition slice_to {A : Type} (k : Z) (data : list A) : list A :=
  firstn (Z.to_nat (adjust_index (Z.of_nat (length data)) k)) data.

Definition slice_from {A : Type} (k : Z) (data : list A) : list A :=
  skipn (Z.to_nat (adjust_index (Z.of_nat (length data)) k)) data.

(** ** Files *)

Abbreviation files := (gmap string (list string)).

Definition read_lines (fs : files) (path : string) : outcome (list string) :=
  match fs !! path with
  | Some f => Ok f
  | None => Raise FileNotFoundError
  end.

(** Truth value of a string: non-empty. *)
Definition nonempty (s : string) : bool :=
  match s with
  | EmptyString => false
  | String _ _ => true
  end.

(** ** [split_dataset.py] *)

Section Splitter.
Context (R : Runtime).

(** [x[i], x[j] = x[j], x[i]]; an index out of range raises. *)
Definition swap {A : Type} (x : list A) (i j : nat) : outcome (list A) :=
  match x !! j, x !! i with
  | Some xj, Some xi => Ok (<[j := xi]> (<[i := xj]> x))
  | _, _ => Raise IndexError
  end.

(** [random.shuffle(x)]:
    [for i in reversed(range(1, len(x))): j = randbelow(i + 1); swap].
    The result gives the state of the generator and the shuffled list. *)
Fixpoint shuffle_from {A : Type} (i : nat) (g : rng R) (x : list A)
  : rng R * outcome (list A) :=
  match i with
  | O => (g, Ok x)
  | S i' =>
      let (j, g') := randbelow R g (S i) in
      match swap x i j with
      | Ok x' => shuffle_from i' g' x'
      | Raise e => (g', Raise e)
      end
  end.

Definition shuffle {A : Type} (g : rng R) (x : list A) : rng R * outcome (list A) :=
  shuffle_from (length x - 1) g x.

(** [[line.strip() for line in f if line.strip()]] *)
Definition stripped_lines (f : list string) : list string :=
  map (strip R) (List.filter (fun line => nonempty (strip R line)) f).

(** [[json.loads(line) for line in lines]] *)
Fixpoint loads_all (lines : list string) : outcome (list json) :=
  match lines with
  | [] => Ok []
  | line :: rest =>
      v ← json_loads R line;
      data ← loads_all rest;
      mret (v :: data)
  end.

(** [write_jsonl]: one [json.dumps(item) + "\n"] per item. *)
Definition write_jsonl (data : list json) : list string :=
  map (fun item => json_dumps R item +:+ newline) data.

(** [split_jsonl].  [fs] and [g] are the files and the state of the
    generator when the call starts; the result gives both when it ends
    and, on success, [(train_data, test_data)], whose lengths the
    function prints. *)
Definition split_jsonl (fs : files) (g : rng R)
    (input_file train_file test_file : string)
    (test_ratio : spec_float) (seed : Z)
  : files * rng R * outcome (list json * list json) :=
  match read_lines fs input_file with
  | Raise e => (fs, g, Raise e)
  | Ok f =>
      let lines := stripped_lines f in
      match loads_all lines with
      | Raise e => (fs, g, Raise e)
      | Ok data =>
          let g := seed_state R seed in
          let (g, shuffled) := shuffle g data in
          match shuffled with
          | Raise e => (fs, g, Raise e)
          | Ok data =>
              let n_total := length data in
              match compute_n_test n_total test_ratio with
              | Raise e => (fs, g, Raise e)
              | Ok n_test =>
                  let test_data := slice_to n_test data in
                  let train_data := slice_from n_test data in
                  let fs := <[train_file := write_jsonl train_data]> fs in
                  let fs := <[test_file := write_jsonl test_data]> fs in
                  (fs, g, Ok (train_data, test_data))
              end
          end
      end
  end.
End Splitter.

(** ** The loop both transformers share

    [transform_file] is the same text in both scripts; only
    [transform_example] differs. *)

Section TransformFile.
Context (R : Runtime).
Variable transform_example : json -> outcome json.

(** [for line in fin: ...], with [fout] the lines written so far.
    [except json.JSONDecodeError] catches that exception of [json.loads]
    and no other; an exception that is not caught leaves the loop with
    what was written before it. *)
Fixpoint transform_lines (fin fout : list string) : list string * outcome unit :=
  match fin with
  | [] => (fout, Ok tt)
  | line :: rest =>
      let line := strip R line in
      if negb (nonempty line) then transform_lines rest fout
      else
        match json_loads R line with
        | Raise JSONDecodeError => transform_lines rest fout
        | Raise e => (fout, Raise e)
        | Ok example =>
            match transform_example example with
            | Raise e => (fout, Raise e)
            | Ok transformed =>
                transform_lines rest (fout ++ [json_dumps R transformed +:+ newline])
            end
        end
  end.

(** [with open(input_file, 'r') as fin, open(output_file, 'w') as fout]:
    the output is created or truncated before the first line is read. *)
Definition transform_file_with (fs : files) (input_file output_file : string)
  : files * outcome unit :=
  match read_lines fs input_file with
  | Raise e => (fs, Raise e)
  | Ok _ =>
      let fs := <[output_file := []]> fs in
      let fin := default [] (fs !! input_file) in
      let (fout, r) := transform_lines fin [] in
      (<[output_file := fout]> fs, r)
  end.
End TransformFile.

(** ** [transform_to_conversational.py] *)

Module Conversational.
Section Defs.
Context (R : Runtime).

Definition instruction : string :=
  "Instruction: From the provided context, please choose exactly one option and respond with the name exactly as it appears.".

(** A value without [.get] (anything but a [dict]) raises
    [AttributeError] at the first lookup. *)
Definition transform_example (example : json) : outcome json :=
  match example with
  | JDict d =>
      let user_message :=
        "Query: " +:+ py_str R (dict_get d "query" (JStr "")) +:+ newline +:+
        "Context: " +:+ py_str R (dict_get d "context" (JStr "")) +:+ newline +:+
        instruction in
      let messages :=
        [ JDict [("role", JStr "user"); ("content", JStr user_message)];
          JDict [("role", JStr "assistant");
                 ("content", JStr (py_str R (dict_get d "response" (JStr ""))))] ] in
      Ok (JDict [("messages", JList messages)])
  | _ => Raise AttributeError
  end.

Definition transform_file : files -> string -> string -> files * outcome unit :=
  transform_file_with R transform_example.
End Defs.
End Conversational.

(** ** [transform_to_standard.py] *)

Module Standard.
Section Defs.
Context (R : Runtime).

Definition transform_example (example : json) : outcome json :=
  match example with
  | JDict d =>
      let text :=
        "Query: " +:+ py_str R (dict_get d "query" (JStr "")) +:+ newline +:+
        "Context: " +:+ py_str R (dict_get d "context" (JStr "")) +:+ newline +:+
        "Answer: " +:+ py_str R (dict_get d "response" (JStr "")) in
      Ok (JDict [("text", JStr text)])
  | _ => Raise AttributeError
  end.

Definition transform_file : files -> string -> string -> files * outcome unit :=
  transform_file_with R transform_example.
End Defs.
End Standard.

(** ** The scripts with their console output

    The same functions with the lines they print: [stdout] collects the
    text of each [print], in order. *)

Section Console.
Context (R : Runtime).

(** [split_jsonl], with the summary it prints once both files are
    written. *)
Definition split_jsonl_io (fs : files) (g : rng R) (stdout : list string)
    (input_file train_file test_file : string)
    (test_ratio : spec_float) (seed : Z)
  : files * rng R * list string * outcome (list json * list json) :=
  match read_lines fs input_file with
  | Raise e => (fs, g, stdout, Raise e)
  | Ok f =>
      let lines := stripped_lines R f in
      match loads_all R lines with
      | Raise e => (fs, g, stdout, Raise e)
      | Ok data =>
          let g := seed_state R seed in
          let (g, shuffled) := shuffle R g data in
          match shuffled with
          | Raise e => (fs, g, stdout, Raise e)
          | Ok data =>
              let n_total := length data in
              match compute_n_test n_total test_ratio with
              | Raise e => (fs, g, stdout, Raise e)
              | Ok n_test =>
                  let test_data := slice_to n_test data in
                  let train_data := slice_from n_test data in
                  let fs := <[train_file := write_jsonl R train_data]> fs in
                  let fs := <[test_file := write_jsonl R test_data]> fs in
                  let stdout :=
                    stdout ++
                    [ "Total examples: " +:+ int_str (Z.of_nat n_total);
                      "Train examples: " +:+ int_str (Z.of_nat (length train_data));
                      "Test examples: " +:+ int_str (Z.of_nat (length test_data)) ] in
                  (fs, g, stdout, Ok (train_data, test_data))
              end
          end
      end
  end.

Variable transform_example : json -> outcome json.

(** The loop of [transform_file], with the message printed for each line
    that is not JSON. *)
Fixpoint transform_lines_io (fin fout stdout : list string)
  : list string * list string * outcome unit :=
  match fin with
  | [] => (fout, stdout, Ok tt)
  | line :: rest =>
      let line := strip R line in
      if negb (nonempty line) then transform_lines_io rest fout stdout
      else
        match json_loads R line with
        | Raise JSONDecodeError =>
            transform_lines_io rest fout (stdout ++ ["Error decoding JSON: " +:+ line])
        | Raise e => (fout, stdout, Raise e)
        | Ok example =>
            match transform_example example with
            | Raise e => (fout, stdout, Raise e)
            | Ok transformed =>
                transform_lines_io rest (fout ++ [json_dumps R transformed +:+ newline]) stdout
            end
        end
  end.

(** [transform_file], with the closing message, printed after the two
    files are closed. *)
Definition transform_file_io (fs : files) (stdout : list string)
    (input_file output_file : string)
  : files * list string * outcome unit :=
  match read_lines fs input_file with
  | Raise e => (fs, stdout, Raise e)
  | Ok _ =>
      let fs := <[output_file := []]> fs in
      let fin := default [] (fs !! input_file) in
      let '(fout, stdout, r) := transform_lines_io fin [] stdout in
      let fs := <[output_file := fout]> fs in
      match r with
      | Raise e => (fs, stdout, Raise e)
      | Ok _ => (fs, stdout ++ ["Transformed data written to " +:+ output_file], Ok tt)
      end
  end.
End Console.

(** The defaults of [split_jsonl] and of the command line: [test_ratio = 0.2],
    the double nearest to one fifth, and [seed = 42]. *)
Definition default_test_ratio : spec_float := S754_finite false 7205759403792794 (-55).
Definition default_seed : Z := 42.

(** The keys a transformer reads. *)
Definition read_keys : list string := ["query"; "context"; "response"].

Definition keep_read_keys (d : list (string * json)) : list (string * json) :=
  List.filter (fun kv => existsb (String.eqb (fst kv)) read_keys) d.

(** ** The words of the specification

    What the specification calls the text of a field, the user template,
    the valid records of a file and the lines of an output file.  They are
    written from its sentences, not from the scripts, and the theorems
    compare the scripts with them. *)

Section SpecWords.
Context (R : Runtime).

(** The text substituted for a field: empty when the key is absent, the
    string itself when the field is a string, the text Python gives any
    other value. *)
Definition field_text (d : list (string * json)) (key : string) : string :=
  match List.find (fun kv => String.eqb (fst kv) key) d with
  | None => ""
  | Some (_, JStr s) => s
  | Some (_, v) => py_repr R v
  end.

(** The value of a line that parses. *)
Definition parsed (line : string) : option json :=
  match json_loads R line with
  | Ok v => Some v
  | Raise _ => None
  end.

(** The records of a file: its lines, trimmed, without the blank ones
    and without those that do not parse, in the order of the file. *)
Definition valid_records (f : list string) : list json :=
  omap parsed (List.filter nonempty (map (strip R) f)).

(** A line that is blank or holds a JSON value [json.loads] returns. *)
Definition parses (line : string) : Prop :=
  nonempty (strip R line) = true -> exists v, json_loads R (strip R line) = Ok v.

(** Lines on which [json.loads] raises nothing but
    [json.JSONDecodeError]: each is blank, parses, or is not JSON. *)
Definition only_decode_errors (f : list string) : Prop :=
  Forall (fun line =>
            nonempty (strip R line) = true ->
            forall e, json_loads R (strip R line) = Raise e -> e = JSONDecodeError) f.

(** One output line per record. *)
Definition jsonl (records : list json) : list string :=
  map (fun v => json_dumps R v +:+ newline) records.
End SpecWords.

Definition user_template (query context : string) : string :=
  "Query: " +:+ query +:+ newline +:+ "Context: " +:+ context +:+ newline +:+
  "Instruction: From the provided context, please choose exactly one option and respond with the name exactly as it appears.".

Definition text_template (query context response : string) : string :=
  "Query: " +:+ query +:+ newline +:+ "Context: " +:+ context +:+ newline +:+
  "Answer: " +:+ response.

(** ** A concrete runtime, to run the scripts on examples

    It implements a fragment of the library: [strip] removes the ASCII
    whitespace, [json_loads] reads [null], [true], [false], integers,
    [[]], [{}] and objects with one key bound to [null], and the
    generator is a linear congruential one.  On the lines it accepts it
    returns what [json.loads] returns, the lines the examples use as
    malformed are malformed for [json.loads] too, and an integer of more
    than 4300 digits, alone or as the [query] of an object, raises
    [ValueError] as it does in CPython from 3.11 on. *)

Module Sample.

Definition is_space (c : ascii) : bool :=
  let n := nat_of_ascii c in
  ((9 <=? n) && (n <=? 13) || (28 <=? n) && (n <=? 32))%nat.

Fixpoint lstrip (s : string) : string :=
  match s with
  | EmptyString => EmptyString
  | String c s' => if is_space c then lstrip s' else s
  end.

Fixpoint rstrip (s : string) : string :=
  match s with
  | EmptyString => EmptyString
  | String c s' =>
      match rstrip s' with
      | EmptyString => if is_space c then EmptyString else String c EmptyString
      | t => String c t
      end
  end.

Definition strip (s : string) : string := rstrip (lstrip s).

Definition is_digit (c : ascii) : bool :=
  let n := nat_of_ascii c in ((48 <=? n) && (n <=? 57))%nat.

Fixpoint digits_value (s : string) (acc : Z) : option Z :=
  match s with
  | EmptyString => Some acc
  | String c s' =>
      if is_digit c then digits_value s' (10 * acc + Z.of_nat (nat_of_ascii c) - 48)
      else None
  end.

(** A JSON integer: no leading zero, an optional minus sign. *)
Definition loads_nat (s : string) : option Z :=
  match s with
  | EmptyString => None
  | String c EmptyString => digits_value s 0
  | String c _ => if Ascii.eqb c "0" then None else digits_value s 0
  end.

Definition loads_int (s : string) : option Z :=
  match s with
  | String "-" s' => Z.opp <$> loads_nat s'
  | _ => loads_nat s
  end.

Definition dquote : string := String (ascii_of_nat 34) EmptyString.

(** The text [{"key": null}]. *)
Definition null_field (key : string) : string :=
  "{" +:+ dquote +:+ key +:+ dquote +:+ ": null}".

(** The limit of [int] on the digits of a decimal text,
    [sys.get_int_max_str_digits()]. *)
Definition int_max_str_digits : nat := 4300.

Definition digits_of (s : string) : string :=
  match s with
  | String "-" s' => s'
  | _ => s
  end.

(** A JSON integer is read by [int], which refuses a text of too many
    digits. *)
Definition loads_number (s : string) : outcome json :=
  match loads_int s with
  | None => Raise JSONDecodeError
  | Some n =>
      if (int_max_str_digits <? String.length (digits_of s))%nat
      then Raise ValueError
      else Ok (JInt n)
  end.

(** An integer of 4301 digits. *)
Definition long_digits : string :=
  string_of_list_ascii (repeat "1"%char 4301).

(** The text [{"query": 11...1}], an object with that integer. *)
Definition long_query : string :=
  "{" +:+ dquote +:+ "query" +:+ dquote +:+ ": " +:+ long_digits +:+ "}".

Definition json_loads (s : string) : outcome json :=
  if String.eqb s "null" then Ok JNull
  else if String.eqb s "true" then Ok (JBool true)
  else if String.eqb s "false" then Ok (JBool false)
  else if String.eqb s "[]" then Ok (JList [])
  else if String.eqb s "{}" then Ok (JDict [])
  else if String.eqb s (null_field "query") then Ok (JDict [("query", JNull)])
  else if String.eqb s (null_field "context") then Ok (JDict [("context", JNull)])
  else if String.eqb s (null_field "response") then Ok (JDict [("response", JNull)])
  else if String.eqb s long_query then Raise ValueError
  else loads_number s.

Definition str_repr (s : string) : string := "'" +:+ s +:+ "'".

Definition float_repr (f : spec_float) : string :=
  match f with
  | S754_zero false => "0.0"
  | S754_zero true => "-0.0"
  | S754_infinity false => "inf"
  | S754_infinity true => "-inf"
  | S754_nan => "nan"
  | S754_finite _ _ _ => "?"
  end.

(** [json.dumps] with its default separators; the strings of the
    examples need no escape. *)
Fixpoint json_dumps (v : json) : string :=
  match v with
  | JNull => "null"
  | JBool true => "true"
  | JBool false => "false"
  | JInt n => int_str n
  | JFloat f => float_repr f
  | JStr s => dquote +:+ s +:+ dquote
  | JList l => "[" +:+ join ", " (map json_dumps l) +:+ "]"
  | JDict d =>
      "{" +:+ join ", " (map (fun kv => dquote +:+ fst kv +:+ dquote +:+ ": " +:+ json_dumps (snd kv)) d) +:+ "}"
  end.

Definition lcg_next (g : Z) : Z := (g * 1103515245 + 12345) mod 2 ^ 31.

Definition randbelow (g : Z) (n : nat) : nat * Z :=
  let g' := lcg_next g in (Z.to_nat (g' mod Z.of_nat n), g').

Lemma lcg_randbelow_lt (g : Z) (n : nat) : (0 < n)%nat -> (fst (randbelow g n) < n)%nat.
Proof.
  intros Hn. unfold randbelow. cbn [fst].
  pose proof (Z.mod_pos_bound (lcg_next g) (Z.of_nat n)). lia.
Qed.

Definition runtime : Runtime :=
  Build_Runtime strip json_loads json_dumps float_repr str_repr
    Z (fun a => a mod 2 ^ 31) randbelow lcg_randbelow_lt.

(** Six records and a blank line; below, the splitter runs on them with
    the defaults of the command line, [0.2] and [42]. *)
Definition six_lines : list string :=
  ["1" +:+ newline; "2" +:+ newline; newline; "3" +:+ newline;
   "4" +:+ newline; "5" +:+ newline; "6" +:+ newline].

(** The double nearest to [0.2]. *)
Definition ratio_0_2 : spec_float := S754_finite false 7205759403792794 (-55).

Definition fs_six : files := {[ "in" := six_lines ]}.

(** A file with a line that is not JSON. *)
Definition fs_bad : files :=
  {[ "in" := ["1" +:+ newline; "{oops" +:+ newline; "2" +:+ newline] ]}.

Definition six_run : files * Z * outcome (list json * list json) :=
  split_jsonl runtime fs_six 0 "in" "train" "test" ratio_0_2 42.

(** The same six lines under another name, among other files, read with
    the generator in another state. *)
Definition fs_copy : files := <[ "copy" := six_lines ]> fs_bad.

Definition copy_run : files * Z * outcome (list json * list json) :=
  split_jsonl runtime fs_copy 7 "copy" "train" "test" ratio_0_2 42.

(** A file whose only line is the JSON number [5]. *)
Definition fs_five : files := {[ "in" := ["5" +:+ newline] ]}.

Definition fs_empty : files := {[ "in" := [] ]}.

(** Input of the transformers: two objects, a blank line and a line
    that is not JSON. *)
Definition mixed_lines : list string :=
  ["{}" +:+ newline; "   " +:+ newline; "{oops" +:+ newline;
   null_field "response" +:+ newline].

Definition fs_mixed : files := {[ "in" := mixed_lines ]}.

(** An object, the number [5], an object. *)
Definition fs_number : files :=
  {[ "in" := ["{}" +:+ newline; "5" +:+ newline; "{}" +:+ newline] ]}.

(** An object, an object whose [query] is an integer of 4301 digits,
    an object. *)
Definition fs_long : files :=
  {[ "in" := ["{}" +:+ newline; long_query +:+ newline; "{}" +:+ newline] ]}.

(** That integer alone on a line, before a line that is not JSON. *)
Definition fs_long_bad : files :=
  {[ "in" := [long_digits +:+ newline; "{oops" +:+ newline] ]}.

(** The record of the end-to-end example of the specification. *)
Definition sofa : json :=
  JDict [("query", JStr "Where is the sofa?"); ("context", JStr "Area 5");
         ("response", JStr "area_5")].
End Sample.

(** ** More inputs for the examples *)

Module Cases.
(** The doubles [-0.2] and [1.5]. *)
Definition ratio_minus_0_2 : spec_float := S754_finite true 7205759403792794 (-55).
Definition ratio_1_5 : spec_float := S754_finite false 6755399441055744 (-52).

(** The six records of [Sample.six_lines], each plus ten. *)
Definition plus_ten (v : json) : json :=
  match v with
  | JInt n => JInt (n + 10)
  | _ => v
  end.

Definition teen_lines : list string :=
  ["11" +:+ newline; "12" +:+ newline; "13" +:+ newline;
   "14" +:+ newline; "15" +:+ newline; "16" +:+ newline].

Definition fs_teen : files := {[ "in" := teen_lines ]}.

(** The double nearest to [0.3], which is below three tenths. *)
Definition ratio_0_3 : spec_float := S754_finite false 5404319552844595 (-54).

Definition ten_lines : list string :=
  ["1" +:+ newline; "2" +:+ newline; "3" +:+ newline; "4" +:+ newline;
   "5" +:+ newline; "6" +:+ newline; "7" +:+ newline; "8" +:+ newline;
   "9" +:+ newline; "10" +:+ newline].

Definition fs_ten : files := {[ "in" := ten_lines ]}.

(** A record with the three keys read and two others. *)
Definition with_node_ids : list (string * json) :=
  [("node_ids", JList [JInt 1; JInt 2]); ("query", JStr "q"); ("extra", JNull);
   ("response", JStr "r")].
End Cases.

(** * Properties *)

(** Closes a goal about a concrete run by running it. *)
Ltac evaluate := vm_compute; reflexivity.

(** Checks, line by line, that [json_loads] raises nothing but
    [JSONDecodeError] on a concrete file. *)
Ltac decode_errors :=
  unfold only_decode_errors;
  repeat (apply Forall_cons; split;
          [let e := fresh "e" in let He := fresh "He" in
           intros _ e He; vm_compute in He; by simplify_eq|]);
  by apply Forall_nil.

(** ** The shuffle is a permutation, and does not look at the records *)

Section ShuffleFacts.
Context (R : Runtime) {A : Type}.
Implicit Types (x y : list A) (g : rng R).

Lemma insert_delete_Permutation x i (a b : A) :
  x !! i = Some a -> <[i := b]> x ≡ₚ b :: delete i x.
Proof.
  revert i. induction x as [|c x IH]; intros [|i] Hi; simplify_eq/=; auto.
  rewrite (IH i Hi). apply perm_swap.
Qed.

Lemma insert_insert_Permutation x i j (xi xj : A) :
  x !! i = Some xi -> x !! j = Some xj -> <[j := xi]> (<[i := xj]> x) ≡ₚ x.
Proof.
  intros Hi Hj. destruct (decide (i = j)) as [->|Hne].
  - rewrite Hi in Hj. injection Hj as <-.
    by rewrite !(list_insert_id x j xi Hi).
  - set (z := <[i := xj]> x).
    assert (Hzj : z !! j = Some xj) by (unfold z; by rewrite list_lookup_insert_ne).
    rewrite (insert_delete_Permutation z j xj xi Hzj).
    transitivity (xi :: delete i x); [|symmetry; by apply delete_Permutation].
    apply perm_skip.
    apply (Permutation_cons_inv (a := xj)).
    rewrite <- (delete_Permutation z j xj Hzj).
    unfold z. apply (insert_delete_Permutation x i xi xj Hi).
Qed.

(** Within the list, the exchange returns and permutes. *)
Lemma swap_Ok x i j :
  (i < length x)%nat -> (j < length x)%nat ->
  exists y, swap x i j = Ok y /\ y ≡ₚ x.
Proof.
  intros Hi Hj. unfold swap.
  destruct (lookup_lt_is_Some_2 x i Hi) as [xi Hxi].
  destruct (lookup_lt_is_Some_2 x j Hj) as [xj Hxj].
  rewrite Hxi, Hxj. eexists. split; [done|].
  by apply insert_insert_Permutation.
Qed.

(** The indexes [_randbelow] draws are within the list, so the shuffle
    never raises, and it returns a permutation. *)
Lemma shuffle_from_Ok i g x :
  (i <= length x - 1)%nat ->
  exists y, (shuffle_from R i g x).2 = Ok y /\ y ≡ₚ x.
Proof.
  revert g x. induction i as [|i IH]; intros g x Hi; simpl; [by exists x|].
  pose proof (randbelow_lt R g (S (S i)) ltac:(lia)) as Hj.
  destruct (randbelow R g (S (S i))) as [j g']. simpl in Hj.
  destruct (swap_Ok x (S i) j) as (x' & -> & Hx'); [lia|lia|].
  destruct (IH g' x') as (y & Hy & Hperm).
  { rewrite (Permutation_length Hx'). lia. }
  exists y. split; [done|]. by rewrite Hperm.
Qed.

Lemma shuffle_Ok g x : exists y, (shuffle R g x).2 = Ok y /\ y ≡ₚ x.
Proof. by apply shuffle_from_Ok. Qed.

Lemma shuffle_nil g : shuffle R g (@nil A) = (g, Ok []).
Proof. reflexivity. Qed.
End ShuffleFacts.

Section ShuffleMap.
Context (R : Runtime) {A B : Type} (f : A -> B).

Lemma swap_fmap (x y : list A) i j :
  swap x i j = Ok y -> swap (f <$> x) i j = Ok (f <$> y).
Proof.
  unfold swap. rewrite !list_lookup_fmap.
  destruct (x !! j) as [xj|]; simpl; [|done].
  destruct (x !! i) as [xi|]; simpl; [|done].
  intros [= <-]. by rewrite !list_fmap_insert.
Qed.

Lemma shuffle_from_fmap i (g g' : rng R) (x y : list A) :
  shuffle_from R i g x = (g', Ok y) ->
  shuffle_from R i g (f <$> x) = (g', Ok (f <$> y)).
Proof.
  revert g x. induction i as [|i IH]; intros g x; simpl; [by intros [= <- <-]|].
  destruct (randbelow R g (S (S i))) as [j g''].
  destruct (swap x (S i) j) as [x'|e] eqn:Hswap; [|done].
  rewrite (swap_fmap x x' _ _ Hswap). apply IH.
Qed.

Lemma shuffle_fmap (g g' : rng R) (x y : list A) :
  shuffle R g x = (g', Ok y) -> shuffle R g (f <$> x) = (g', Ok (f <$> y)).
Proof. unfold shuffle. rewrite length_fmap. apply shuffle_from_fmap. Qed.
End ShuffleMap.

(** ** Slices cut a list in two *)

Lemma slice_app {A : Type} (k : Z) (data : list A) :
  slice_to k data ++ slice_from k data = data.
Proof. apply firstn_skipn. Qed.

Lemma slice_nonneg {A : Type} (k : Z) (data : list A) :
  0 <= k ->
  slice_to k data = take (Z.to_nat k) data /\ slice_from k data = drop (Z.to_nat k) data.
Proof.
  intros Hk. unfold slice_to, slice_from, adjust_index.
  destruct (Z.ltb_spec k 0); [lia|].
  destruct (Z.min_spec k (Z.of_nat (length data))) as [[Hlt ->]|[Hge ->]]; [done|].
  rewrite Nat2Z.id, firstn_all, skipn_all.
  by rewrite take_ge, drop_ge by lia.
Qed.

(** ** Rounding to binary64

    What [SpecFloat]'s rounding does to a positive mantissa: the bits
    shifted out are dropped or round the mantissa up by one, and nothing
    changes when they are all zero. *)

Section Rounding.

Lemma digits2_pos_bounds (p : positive) :
  2 ^ (Zpos (digits2_pos p) - 1) <= Zpos p < 2 ^ Zpos (digits2_pos p).
Proof.
  induction p as [p IH|p IH|]; simpl digits2_pos; [| |simpl; lia].
  all: rewrite Pos2Z.inj_succ.
  all: replace (Z.succ (Zpos (digits2_pos p)) - 1) with (Z.succ (Zpos (digits2_pos p) - 1)) by lia.
  all: rewrite !Z.pow_succ_r by lia.
  all: lia.
Qed.

Lemma Zdigits2_le (m k : Z) : 0 <= m < 2 ^ k -> 0 <= k -> Zdigits2 m <= k.
Proof.
  intros [Hm Hlt] Hk. destruct m as [|p|p]; simpl; [lia| |lia].
  pose proof (digits2_pos_bounds p) as [Hlo _].
  assert (Hp : 2 ^ (Zpos (digits2_pos p) - 1) < 2 ^ k) by lia.
  apply Z.pow_lt_mono_r_iff in Hp; lia.
Qed.

Lemma digits2_pos_unique (p : positive) (d : Z) :
  2 ^ (d - 1) <= Zpos p < 2 ^ d -> 0 < d -> Zpos (digits2_pos p) = d.
Proof.
  intros [Hlo Hhi] Hd.
  pose proof (digits2_pos_bounds p) as [Hlo' Hhi'].
  assert (H1 : 2 ^ (d - 1) < 2 ^ Zpos (digits2_pos p)) by lia.
  assert (H2 : 2 ^ (Zpos (digits2_pos p) - 1) < 2 ^ d) by lia.
  apply Z.pow_lt_mono_r_iff in H1; [|lia|lia].
  apply Z.pow_lt_mono_r_iff in H2; lia.
Qed.

(** [mrs] is [M] shifted right by [j] bits: its mantissa is the quotient
    and its two flags are clear when the bits shifted out are zero. *)
Definition shifted (M j : Z) (mrs : shr_record) : Prop :=
  0 <= shr_m mrs
  /\ shr_m mrs * 2 ^ j <= M < (shr_m mrs + 1) * 2 ^ j
  /\ (M = shr_m mrs * 2 ^ j -> shr_r mrs = false /\ shr_s mrs = false).

Lemma shifted_0 (M : Z) : 0 <= M -> shifted M 0 (Build_shr_record M false false).
Proof. intros HM. unfold shifted; simpl. lia. Qed.

Lemma shr_1_shifted (M j : Z) (mrs : shr_record) :
  0 <= j -> shifted M j mrs -> shifted M (j + 1) (shr_1 mrs).
Proof.
  intros Hj (Hm & [Hlo Hhi] & Hex).
  assert (HP : 0 < 2 ^ j) by (apply Z.pow_pos_nonneg; lia).
  assert (HS : 2 ^ (j + 1) = 2 * 2 ^ j) by (rewrite Z.pow_add_r, Z.pow_1_r; lia).
  unfold shifted. rewrite HS. clear HS.
  destruct mrs as [m r s]; simpl in *.
  set (P := 2 ^ j) in *.
  destruct m as [|[p|p|]|p]; simpl; try lia.
  - split; [lia|]. split; [lia|]. intros HM.
    destruct Hex as [-> ->]; [lia|done].
  - split; [lia|]. split; [lia|]. intros HM.
    destruct Hex as [-> ->]; [lia|done].
Qed.

Lemma iter_shr_1_shifted (p : positive) (M j : Z) (mrs : shr_record) :
  0 <= j -> shifted M j mrs -> shifted M (j + Zpos p) (SpecFloat.iter_pos shr_1 p mrs).
Proof.
  revert j mrs. induction p as [p IH|p IH|]; intros j mrs Hj H; simpl.
  - replace (j + Zpos p~1) with (((j + 1) + Zpos p) + Zpos p) by lia.
    apply IH; [lia|]. apply IH; [lia|]. by apply shr_1_shifted.
  - replace (j + Zpos p~0) with ((j + Zpos p) + Zpos p) by lia.
    apply IH; [lia|]. by apply IH.
  - by apply shr_1_shifted.
Qed.

(** The first step of the rounding: shift right by [k], the number of
    bits in excess of the format. *)
Lemma shr_fexp_shifted (M e : Z) :
  0 <= M ->
  exists mrs k,
    shr_fexp prec emax M e loc_Exact = (mrs, e + k)
    /\ k = Z.max 0 (fexp prec emax (Zdigits2 M + e) - e)
    /\ shifted M k mrs.
Proof.
  intros HM. unfold shr_fexp, shr. simpl shr_record_of_loc.
  destruct (fexp prec emax (Zdigits2 M + e) - e) as [|p|p] eqn:Hk.
  - exists (Build_shr_record M false false), 0.
    rewrite Z.add_0_r. split; [done|]. split; [done|]. by apply shifted_0.
  - exists (SpecFloat.iter_pos shr_1 p (Build_shr_record M false false)), (Zpos p).
    split; [done|]. split; [lia|].
    apply (iter_shr_1_shifted p M 0); [lia|]. by apply shifted_0.
  - exists (Build_shr_record M false false), 0.
    rewrite Z.add_0_r. split; [done|]. split; [lia|]. by apply shifted_0.
Qed.

Lemma round_nearest_even_bounds (mrs : shr_record) :
  let m := round_nearest_even (shr_m mrs) (loc_of_shr_record mrs) in
  shr_m mrs <= m <= shr_m mrs + 1
  /\ (shr_r mrs = false /\ shr_s mrs = false -> m = shr_m mrs).
Proof.
  destruct mrs as [m [|] [|]]; simpl; try destruct (Z.even m); split; try lia.
  all: intros [? ?]; done.
Qed.
Lemma fexp_eq (z : Z) : fexp prec emax z = Z.max (z - 53) (-1074).
Proof. reflexivity. Qed.

Lemma pow2_pos (k : Z) : 0 <= k -> 0 < 2 ^ k.
Proof. intros. apply Z.pow_pos_nonneg; lia. Qed.

Lemma pow2_split (a b : Z) : 0 <= a -> 0 <= b -> 2 ^ (a + b) = 2 ^ a * 2 ^ b.
Proof. intros. by rewrite Z.pow_add_r. Qed.

(** Rounding a product that is at most the integer [n] gives a float
    that is at most [n], and never an infinity: written on integers,
    with [e <= 0] the exponent of the mantissa [M]. *)
Lemma binary_round_aux_le (s : bool) (M : positive) (e n : Z) :
  e <= 0 -> 0 <= n < 2 ^ 53 -> Zpos M <= n * 2 ^ (- e) ->
  binary_round_aux prec emax s (Zpos M) e loc_Exact = S754_zero s
  \/ exists m2 e2,
       binary_round_aux prec emax s (Zpos M) e loc_Exact = S754_finite s m2 e2
       /\ e2 <= 0 /\ Zpos m2 <= n * 2 ^ (- e2).
Proof.
  intros He Hn HM. unfold binary_round_aux.
  destruct (shr_fexp_shifted (Zpos M) e) as (mrs1 & k1 & E1 & Hk1 & S1); [lia|].
  rewrite E1.
  pose proof (round_nearest_even_bounds mrs1) as Hrne. cbv zeta in Hrne.
  set (m1 := round_nearest_even (shr_m mrs1) (loc_of_shr_record mrs1)) in *.
  destruct S1 as (Hq1 & [Hlo1 Hhi1] & Hex1).
  destruct Hrne as [[Hm1lo Hm1hi] Hm1ex].
  destruct (shr_fexp_shifted m1 (e + k1)) as (mrs2 & k2 & E2 & Hk2 & S2); [lia|].
  rewrite E2.
  destruct S2 as (Hq2 & [Hlo2 Hhi2] & _).
  rewrite fexp_eq in Hk1, Hk2.
  (* the exponent after the first shift is not positive *)
  assert (Hpe : 0 < 2 ^ (- e)) by (apply pow2_pos; lia).
  assert (HdM : Zdigits2 (Zpos M) <= 53 - e).
  { apply Zdigits2_le; [|lia].
    replace (53 - e) with (53 + - e) by lia. rewrite pow2_split by lia.
    split; [lia|]. nia. }
  assert (He1 : e + k1 <= 0) by lia.
  assert (Hk1n : 0 <= k1) by lia.
  assert (HP1 : 0 < 2 ^ k1) by (by apply pow2_pos).
  assert (Hpe1 : 0 < 2 ^ (- (e + k1))) by (apply pow2_pos; lia).
  assert (Hsp1 : 2 ^ (- e) = 2 ^ (- (e + k1)) * 2 ^ k1).
  { rewrite <- pow2_split by lia. f_equal. lia. }
  (* the mantissa after rounding is at most [n] at that exponent *)
  assert (Hm1 : m1 <= n * 2 ^ (- (e + k1))).
  { set (P1 := 2 ^ k1) in *. set (Q1 := 2 ^ (- (e + k1))) in *.
    rewrite Hsp1 in HM.
    destruct (decide (Zpos M = shr_m mrs1 * P1)) as [Heq|Hne].
    - rewrite (Hm1ex (Hex1 Heq)). nia.
    - assert (shr_m mrs1 < n * Q1) by nia. lia. }
  assert (Hd1 : Zdigits2 m1 <= 53 - (e + k1)).
  { apply Zdigits2_le; [|lia].
    replace (53 - (e + k1)) with (53 + - (e + k1)) by lia.
    rewrite pow2_split by lia. split; [lia|]. nia. }
  assert (He2 : e + k1 + k2 <= 0) by lia.
  assert (Hk2n : 0 <= k2) by lia.
  assert (HP2 : 0 < 2 ^ k2) by (by apply pow2_pos).
  assert (Hpe2 : 0 < 2 ^ (- (e + k1 + k2))) by (apply pow2_pos; lia).
  assert (Hsp2 : 2 ^ (- (e + k1)) = 2 ^ (- (e + k1 + k2)) * 2 ^ k2).
  { rewrite <- pow2_split by lia. f_equal. lia. }
  assert (Hm2 : shr_m mrs2 <= n * 2 ^ (- (e + k1 + k2))).
  { rewrite Hsp2 in Hm1. set (P2 := 2 ^ k2) in *.
    set (Q2 := 2 ^ (- (e + k1 + k2))) in *. nia. }
  destruct (shr_m mrs2) as [|m2|m2] eqn:Em2; [by left| |lia].
  right. exists m2, (e + k1 + k2).
  replace (e + k1 + k2 <=? emax - prec) with true
    by (symmetry; apply Z.leb_le; unfold emax, prec; lia).
  done.
Qed.

(** Rounding between two bounds: a product that lies between [lo] and
    [hi] eighths (or any power of two [2 ^ s] of parts), both below
    [2 ^ 53], rounds to a float between the same bounds. *)
Lemma binary_round_aux_between (sgn : bool) (M : positive) (e s lo hi : Z) :
  0 <= s <= 1074 -> e <= - s -> 0 < lo -> hi < 2 ^ 53 ->
  lo * 2 ^ (- e - s) <= Zpos M <= hi * 2 ^ (- e - s) ->
  exists m2 e2,
    binary_round_aux prec emax sgn (Zpos M) e loc_Exact = S754_finite sgn m2 e2
    /\ e2 <= - s
    /\ lo * 2 ^ (- e2 - s) <= Zpos m2 <= hi * 2 ^ (- e2 - s).
Proof.
  intros Hs He Hlo Hhi [HMlo HMhi]. unfold binary_round_aux.
  destruct (shr_fexp_shifted (Zpos M) e) as (mrs1 & k1 & E1 & Hk1 & S1); [lia|].
  rewrite E1.
  pose proof (round_nearest_even_bounds mrs1) as Hrne. cbv zeta in Hrne.
  set (m1 := round_nearest_even (shr_m mrs1) (loc_of_shr_record mrs1)) in *.
  destruct S1 as (Hq1 & [Hlo1 Hhi1] & Hex1).
  destruct Hrne as [[Hm1lo Hm1hi] Hm1ex].
  destruct (shr_fexp_shifted m1 (e + k1)) as (mrs2 & k2 & E2 & Hk2 & S2); [lia|].
  rewrite E2.
  destruct S2 as (Hq2 & [Hlo2 Hhi2] & _).
  rewrite fexp_eq in Hk1, Hk2.
  assert (Hpe : 0 < 2 ^ (- e - s)) by (apply pow2_pos; lia).
  assert (HdM : Zdigits2 (Zpos M) <= 53 - e - s).
  { apply Zdigits2_le; [|lia].
    replace (53 - e - s) with (53 + (- e - s)) by lia. rewrite pow2_split by lia.
    split; [lia|]. nia. }
  assert (He1 : e + k1 <= - s) by lia.
  assert (Hk1n : 0 <= k1) by lia.
  assert (HP1 : 0 < 2 ^ k1) by (by apply pow2_pos).
  assert (Hpe1 : 0 < 2 ^ (- (e + k1) - s)) by (apply pow2_pos; lia).
  assert (Hsp1 : 2 ^ (- e - s) = 2 ^ (- (e + k1) - s) * 2 ^ k1).
  { rewrite <- pow2_split by lia. f_equal. lia. }
  assert (Hm1 : lo * 2 ^ (- (e + k1) - s) <= m1 <= hi * 2 ^ (- (e + k1) - s)).
  { set (P1 := 2 ^ k1) in *. set (Q1 := 2 ^ (- (e + k1) - s)) in *.
    rewrite Hsp1 in HMlo, HMhi. split.
    - assert (lo * Q1 < shr_m mrs1 + 1) by nia. lia.
    - destruct (decide (Zpos M = shr_m mrs1 * P1)) as [Heq|Hne].
      + rewrite (Hm1ex (Hex1 Heq)). nia.
      + assert (shr_m mrs1 < hi * Q1) by nia. lia. }
  assert (Hd1 : Zdigits2 m1 <= 53 - (e + k1) - s).
  { apply Zdigits2_le; [|lia].
    replace (53 - (e + k1) - s) with (53 + (- (e + k1) - s)) by lia.
    rewrite pow2_split by lia. split; [lia|]. nia. }
  assert (He2 : e + k1 + k2 <= - s) by lia.
  assert (Hk2n : 0 <= k2) by lia.
  assert (HP2 : 0 < 2 ^ k2) by (by apply pow2_pos).
  assert (Hpe2 : 0 < 2 ^ (- (e + k1 + k2) - s)) by (apply pow2_pos; lia).
  assert (Hsp2 : 2 ^ (- (e + k1) - s) = 2 ^ (- (e + k1 + k2) - s) * 2 ^ k2).
  { rewrite <- pow2_split by lia. f_equal. lia. }
  assert (Hm2 : lo * 2 ^ (- (e + k1 + k2) - s) <= shr_m mrs2
                <= hi * 2 ^ (- (e + k1 + k2) - s)).
  { rewrite Hsp2 in Hm1. set (P2 := 2 ^ k2) in *.
    set (Q2 := 2 ^ (- (e + k1 + k2) - s)) in *. split.
    - assert (lo * Q2 < shr_m mrs2 + 1) by nia. lia.
    - nia. }
  destruct (shr_m mrs2) as [|m2|m2] eqn:Em2; [nia| |lia].
  exists m2, (e + k1 + k2).
  replace (e + k1 + k2 <=? emax - prec) with true
    by (symmetry; apply Z.leb_le; unfold emax, prec; lia).
  done.
Qed.

(** A mantissa that is a float's own with [j] zero bits appended rounds
    to that float. *)
Lemma binary_round_aux_exact (s : bool) (M m0 : positive) (e0 j : Z) :
  0 <= j -> bounded prec emax m0 e0 = true -> Zpos M = Zpos m0 * 2 ^ j ->
  binary_round_aux prec emax s (Zpos M) (e0 - j) loc_Exact = S754_finite s m0 e0.
Proof.
  intros Hj Hb HM.
  apply andb_true_iff in Hb as [Hc Hle].
  unfold canonical_mantissa in Hc. apply Z.eqb_eq in Hc. rewrite fexp_eq in Hc.
  assert (HPj : 0 < 2 ^ j) by (by apply pow2_pos).
  pose proof (digits2_pos_bounds m0) as [Hd0lo Hd0hi].
  assert (Hd0 : 0 < Zpos (digits2_pos m0)) by lia.
  assert (HdM : Zpos (digits2_pos M) = Zpos (digits2_pos m0) + j).
  { apply digits2_pos_unique; [|lia].
    replace (Zpos (digits2_pos m0) + j - 1) with ((Zpos (digits2_pos m0) - 1) + j) by lia.
    rewrite !pow2_split by lia. rewrite HM.
    split; [apply Z.mul_le_mono_nonneg_r; lia|apply Z.mul_lt_mono_pos_r; lia]. }
  unfold binary_round_aux.
  destruct (shr_fexp_shifted (Zpos M) (e0 - j)) as (mrs1 & k1 & E1 & Hk1 & S1); [lia|].
  rewrite E1. rewrite fexp_eq in Hk1. simpl Zdigits2 in Hk1. rewrite HdM in Hk1.
  assert (k1 = j) by lia. clear Hk1. subst k1.
  destruct S1 as (Hq1 & [Hlo1 Hhi1] & Hex1).
  assert (Hq : shr_m mrs1 = Zpos m0).
  { rewrite HM in Hlo1, Hhi1. apply Z.le_antisymm.
    - apply (Z.mul_le_mono_pos_r _ _ (2 ^ j)); lia.
    - apply Z.lt_succ_r, (Z.mul_lt_mono_pos_r (2 ^ j)); lia. }
  pose proof (round_nearest_even_bounds mrs1) as [_ Hm1ex]. cbv zeta in Hm1ex.
  rewrite Hm1ex by (apply Hex1; rewrite Hq; lia).
  rewrite Hq. replace (e0 - j + j) with e0 by lia.
  destruct (shr_fexp_shifted (Zpos m0) e0) as (mrs2 & k2 & E2 & Hk2 & S2); [lia|].
  rewrite E2. rewrite fexp_eq in Hk2. simpl Zdigits2 in Hk2.
  assert (k2 = 0) by lia. clear Hk2. subst k2.
  destruct S2 as (Hq2 & [Hlo2 Hhi2] & _).
  rewrite Z.pow_0_r in Hlo2, Hhi2.
  assert (Hq' : shr_m mrs2 = Zpos m0) by lia.
  rewrite Hq', Z.add_0_r. by rewrite Hle.
Qed.

Lemma iter_xO_pow (p d : positive) : Zpos (Pos.iter xO p d) = Zpos p * 2 ^ Zpos d.
Proof.
  induction d as [|d IH] using Pos.peano_ind.
  - simpl. lia.
  - rewrite Pos.iter_succ, Pos2Z.inj_xO, IH, Pos2Z.inj_succ, Z.pow_succ_r by lia. lia.
Qed.

(** An [int] below [2 ^ 53] converts to the float of the same value. *)
Lemma float_of_int_exact (n : Z) :
  0 < n < 2 ^ 53 ->
  exists m e,
    float_of_int n = Ok (S754_finite false m e)
    /\ bounded prec emax m e = true /\ e <= 0 /\ Zpos m = n * 2 ^ (- e).
Proof.
  intros [Hn0 Hn]. destruct n as [|p|p]; try lia.
  pose proof (digits2_pos_bounds p) as [Hlo Hhi].
  set (d := Zpos (digits2_pos p)) in *.
  assert (Hd : 0 < d <= 53).
  { split; [subst d; lia|]. apply (Zdigits2_le (Zpos p) 53); lia. }
  unfold float_of_int, binary_normalize, binary_round.
  fold d. rewrite fexp_eq. unfold shl_align.
  replace (Z.max (d + 0 - 53) (-1074) - 0) with (d - 53) by lia.
  assert (Hcanon : forall m e, Zpos (digits2_pos m) = 53 -> -52 <= e <= 0 ->
            bounded prec emax m e = true).
  { intros m e Hm He. unfold bounded, canonical_mantissa.
    rewrite fexp_eq, Hm. apply andb_true_iff. split.
    - apply Z.eqb_eq. lia.
    - apply Z.leb_le. unfold emax, prec. lia. }
  destruct (d - 53) as [|q|q] eqn:Hq; try lia.
  - assert (Hb : bounded prec emax p 0 = true) by (apply Hcanon; subst d; lia).
    exists p, 0.
    pose proof (binary_round_aux_exact false p p 0 0 ltac:(lia) Hb ltac:(simpl; lia)) as Hr.
    rewrite Z.sub_0_r in Hr. rewrite Hr.
    split; [done|]. split; [done|]. simpl. lia.
  - assert (HP : 0 < 2 ^ Zpos q) by (apply pow2_pos; lia).
    assert (Hm : Zpos (Pos.iter xO p q) = Zpos p * 2 ^ Zpos q) by apply iter_xO_pow.
    assert (Hdm : Zpos (digits2_pos (Pos.iter xO p q)) = 53).
    { apply digits2_pos_unique; [|lia]. rewrite Hm.
      assert (H52 : 2 ^ (53 - 1) = 2 ^ (d - 1) * 2 ^ Zpos q)
        by (rewrite <- pow2_split by lia; f_equal; lia).
      assert (H53 : 2 ^ 53 = 2 ^ d * 2 ^ Zpos q)
        by (rewrite <- pow2_split by lia; f_equal; lia).
      rewrite H52, H53.
      split; [apply Z.mul_le_mono_nonneg_r; lia|apply Z.mul_lt_mono_pos_r; lia]. }
    assert (Hb : bounded prec emax (Pos.iter xO p q) (Zneg q) = true)
      by (apply Hcanon; lia).
    exists (Pos.iter xO p q), (Zneg q).
    replace (Z.max (d + 0 - 53) (-1074)) with (Zneg q) by lia.
    pose proof (binary_round_aux_exact false (Pos.iter xO p q) (Pos.iter xO p q) (Zneg q) 0 ltac:(lia) Hb
                  ltac:(rewrite Z.pow_0_r; lia)) as Hr.
    rewrite Z.sub_0_r in Hr. rewrite Hr.
    split; [done|]. split; [done|]. split; [lia|]. by rewrite Hm.
Qed.

Lemma float_one_eq : float_one = S754_finite false 4503599627370496 (-52).
Proof. reflexivity. Qed.

Lemma SFmul_one (m : positive) (e : Z) :
  bounded prec emax m e = true ->
  SFmul prec emax (S754_finite false m e) float_one = S754_finite false m e.
Proof.
  intros Hb. rewrite float_one_eq. cbn [SFmul xorb].
  replace (e + -52) with (e - 52) by lia.
  apply binary_round_aux_exact; [lia|done|].
  rewrite Pos2Z.inj_mul. reflexivity.
Qed.

(** For a float that is not negative, [int] is the floor. *)
Lemma floor_of_float_nonneg (m : positive) (e : Z) :
  floor_of_float (S754_finite false m e) = Some (Z.shiftl (Zpos m) e).
Proof.
  cbn [floor_of_float cond_Zopp]. f_equal.
  destruct (Z.leb_spec 0 e).
  - by rewrite Z.shiftl_mul_pow2.
  - by rewrite Z.shiftl_div_pow2 by lia.
Qed.

Lemma int_of_float_value (m : positive) (e n : Z) :
  e <= 0 -> Zpos m = n * 2 ^ (- e) -> int_of_float (S754_finite false m e) = Ok n.
Proof.
  intros He Hm. cbn [int_of_float cond_Zopp]. f_equal.
  rewrite Z.shiftl_div_pow2, Hm by lia.
  apply Z.div_mul. pose proof (pow2_pos (- e)). lia.
Qed.

Lemma unit_ratio_cases (r : spec_float) :
  unit_ratio r = true ->
  (exists s, r = S754_zero s)
  \/ (exists m e, r = S754_finite false m e /\ e <= -52 /\ Zpos m <= 2 ^ (- e)).
Proof.
  unfold unit_ratio. rewrite !andb_true_iff. intros [[Hv H0] H1].
  destruct r as [s|s| |s m e]; [left; by exists s|by destruct s|done|].
  right. destruct s; [done|]. exists m, e. split; [done|].
  rewrite float_one_eq in H1. unfold SFleb, SFcompare in H1.
  cbn [valid_binary] in Hv. apply andb_true_iff in Hv as [Hc _].
  unfold canonical_mantissa in Hc. apply Z.eqb_eq in Hc. rewrite fexp_eq in Hc.
  pose proof (digits2_pos_bounds m) as [_ Hhi].
  destruct (Z.compare_spec e (-52)) as [->|Hlt|Hgt]; [| |done].
  - split; [lia|]. rewrite Pos.compare_cont_spec in H1. cbn [Pos.switch_Eq] in H1.
    change (- -52) with 52.
    assert (Hm : (m <= 4503599627370496)%positive).
    { unfold Pos.le. intros Hgt. by rewrite Hgt in H1. }
    clear -Hm. apply Pos2Z.pos_le_pos in Hm. exact Hm.
  - split; [lia|].
    assert (Hd : Zpos (digits2_pos m) <= 53) by lia.
    assert (2 ^ Zpos (digits2_pos m) <= 2 ^ 53) by (apply Z.pow_le_mono_r; lia).
    assert (2 ^ 53 <= 2 ^ (- e)) by (apply Z.pow_le_mono_r; lia).
    lia.
Qed.

(** ** The size of the test set *)

Lemma compute_n_test_Ok (n : nat) (r x : spec_float) :
  float_of_int (Z.of_nat n) = Ok x ->
  compute_n_test n r = int_of_float (SFmul prec emax x r).
Proof. intros Hx. unfold compute_n_test. by rewrite Hx. Qed.

Lemma float_of_int_0 : float_of_int 0 = Ok float_zero.
Proof. reflexivity. Qed.

(** With a ratio in [[0, 1]] and fewer than [2 ^ 53] records, the
    product is a float that is not negative, its floor is what [int]
    returns, and it lies between [0] and the number of records. *)
Lemma compute_n_test_unit (n : nat) (r : spec_float) :
  Z.of_nat n < 2 ^ 53 -> unit_ratio r = true ->
  exists x k,
    float_of_int (Z.of_nat n) = Ok x
    /\ floor_of_float (SFmul prec emax x r) = Some k
    /\ compute_n_test n r = Ok k
    /\ 0 <= k <= Z.of_nat n.
Proof.
  intros Hn Hr.
  destruct (decide (Z.of_nat n = 0)) as [Hz|Hnz].
  - exists float_zero, 0. rewrite (compute_n_test_Ok n r float_zero) by (by rewrite Hz).
    rewrite Hz. split; [done|].
    destruct (unit_ratio_cases r Hr) as [[s ->]|(m & e & -> & _)]; simpl; split_and!; done || lia.
  - destruct (float_of_int_exact (Z.of_nat n)) as (mx & ex & Hx & Hb & Hex & Hmx); [lia|].
    exists (S754_finite false mx ex).
    rewrite (compute_n_test_Ok n r _ Hx).
    destruct (unit_ratio_cases r Hr) as [[s ->]|(mr & er & -> & Her & Hmr)].
    { exists 0. cbn [SFmul floor_of_float int_of_float]. split_and!; done || lia. }
    cbn [SFmul xorb].
    assert (Hpx : 0 < 2 ^ (- ex)) by (apply pow2_pos; lia).
    assert (Hpr : 0 < 2 ^ (- er)) by (apply pow2_pos; lia).
    assert (Hsp : 2 ^ (- (ex + er)) = 2 ^ (- ex) * 2 ^ (- er)).
    { rewrite <- pow2_split by lia. f_equal. lia. }
    destruct (binary_round_aux_le false (mx * mr) (ex + er) (Z.of_nat n))
      as [->|(m2 & e2 & -> & He2 & Hm2)]; [lia|lia| |..].
    { rewrite Hsp, Pos2Z.inj_mul, Z.mul_assoc, <- Hmx.
      apply Z.mul_le_mono_nonneg_l; lia. }
    { exists 0. cbn [floor_of_float int_of_float]. split_and!; done || lia. }
    exists (Z.shiftl (Zpos m2) e2).
    rewrite floor_of_float_nonneg. cbn [int_of_float cond_Zopp].
    split; [done|]. split; [done|]. split; [done|].
    rewrite Z.shiftl_div_pow2 by lia.
    assert (Hp2 : 0 < 2 ^ (- e2)) by (apply pow2_pos; lia).
    split; [apply Z.div_pos; lia|].
    apply Z.div_le_upper_bound; lia.
Qed.

Lemma float_of_int_Ok (n : Z) (x : spec_float) :
  float_of_int n = Ok x -> binary_normalize prec emax n 0 false = x.
Proof.
  unfold float_of_int.
  destruct (binary_normalize prec emax n 0 false); intros; by simplify_eq.
Qed.

(** The same size, against the product computed without rounding: the
    float product is at least the floor of the exact one and at most the
    next integer, which it reaches when it rounds up to it. *)
Lemma compute_n_test_floor (n : nat) (r : spec_float) :
  Z.of_nat n < 2 ^ 53 -> unit_ratio r = true ->
  exists k,
    compute_n_test n r = Ok k
    /\ floor_of_float (SFmul prec emax (binary_normalize prec emax (Z.of_nat n) 0 false) r)
       = Some k
    /\ 0 <= k <= Z.of_nat n
    /\ exact_floor (Z.of_nat n) r <= k <= exact_floor (Z.of_nat n) r + 1.
Proof.
  intros Hn Hr.
  destruct (compute_n_test_unit n r Hn Hr) as (x & k & Hx & Hfl & Hk & Hk0).
  exists k. split; [done|]. rewrite (float_of_int_Ok _ _ Hx). do 2 (split; [done|]).
  destruct (unit_ratio_cases r Hr) as [[s ->]|(mr & er & -> & Her & Hmr)].
  { destruct x; simpl in Hfl; simplify_eq; simpl; lia. }
  cbn [exact_floor cond_Zopp].
  replace (0 <=? er) with false by (symmetry; apply Z.leb_gt; lia).
  assert (Hpr : 0 < 2 ^ (- er)) by (apply pow2_pos; lia).
  set (F := Z.of_nat n * Zpos mr / 2 ^ (- er)).
  assert (HF : F * 2 ^ (- er) <= Z.of_nat n * Zpos mr < (F + 1) * 2 ^ (- er)).
  { subst F. pose proof (Z.mul_div_le (Z.of_nat n * Zpos mr) (2 ^ (- er)) Hpr).
    pose proof (Z.mul_succ_div_gt (Z.of_nat n * Zpos mr) (2 ^ (- er)) Hpr). lia. }
  assert (HF0 : 0 <= F) by (subst F; apply Z.div_pos; lia).
  assert (HFn : F <= Z.of_nat n).
  { apply Z.lt_succ_r. apply (Z.mul_lt_mono_pos_r (2 ^ (- er))); [done|].
    assert (Z.of_nat n * Zpos mr <= Z.of_nat n * 2 ^ (- er))
      by (apply Z.mul_le_mono_nonneg_l; lia).
    lia. }
  destruct (decide (Z.of_nat n = 0)) as [Hz|Hnz]; [lia|].
  destruct (float_of_int_exact (Z.of_nat n)) as (mx & ex & Hx' & Hb & Hex & Hmx); [lia|].
  rewrite Hx' in Hx. injection Hx as <-.
  rewrite (compute_n_test_Ok n _ _ Hx') in Hk. cbn [SFmul xorb] in Hk.
  assert (Hpx : 0 < 2 ^ (- ex)) by (apply pow2_pos; lia).
  assert (Hsp : 2 ^ (- (ex + er)) = 2 ^ (- ex) * 2 ^ (- er)).
  { rewrite <- pow2_split by lia. f_equal. lia. }
  assert (HM : Zpos (mx * mr) = Z.of_nat n * Zpos mr * 2 ^ (- ex)).
  { rewrite Pos2Z.inj_mul, Hmx. ring. }
  destruct (decide (F = 0)) as [HFz|HFnz].
  - (* the exact product is below one *)
    split; [lia|]. rewrite HFz.
    destruct (binary_round_aux_le false (mx * mr) (ex + er) 1)
      as [Hz|(m2 & e2 & Hm & He2 & Hm2)]; [lia|lia| |..].
    { rewrite HM, Hsp. rewrite HFz in HF.
      replace (1 * (2 ^ (- ex) * 2 ^ (- er))) with (2 ^ (- er) * 2 ^ (- ex)) by ring.
      apply Z.mul_le_mono_nonneg_r; lia. }
    { rewrite Hz in Hk. simpl in Hk. injection Hk as <-. lia. }
    rewrite Hm in Hk. cbn [int_of_float cond_Zopp] in Hk. injection Hk as <-.
    rewrite Z.shiftl_div_pow2 by lia.
    assert (Hp2 : 0 < 2 ^ (- e2)) by (apply pow2_pos; lia).
    apply Z.div_le_upper_bound; lia.
  - (* the float product lies where the exact one does *)
    destruct (binary_round_aux_between false (mx * mr) (ex + er) 0 F
                (Z.min (F + 1) (Z.of_nat n)))
      as (m2 & e2 & Hm & He2 & Hm2lo & Hm2hi); [lia|lia|lia|lia| |].
    { rewrite Z.sub_0_r, HM, Hsp. split.
      - replace (F * (2 ^ (- ex) * 2 ^ (- er))) with (F * 2 ^ (- er) * 2 ^ (- ex)) by ring.
        apply Z.mul_le_mono_nonneg_r; lia.
      - replace (Z.min (F + 1) (Z.of_nat n) * (2 ^ (- ex) * 2 ^ (- er)))
          with (Z.min (F + 1) (Z.of_nat n) * 2 ^ (- er) * 2 ^ (- ex)) by ring.
        apply Z.mul_le_mono_nonneg_r; [lia|].
        destruct (Z.min_spec (F + 1) (Z.of_nat n)) as [[_ ->]|[_ ->]]; [lia|].
        apply Z.mul_le_mono_nonneg_l; lia. }
    rewrite Hm in Hk. cbn [int_of_float cond_Zopp] in Hk. injection Hk as <-.
    rewrite Z.shiftl_div_pow2 by lia. rewrite Z.sub_0_r in Hm2lo, Hm2hi.
    assert (Hp2 : 0 < 2 ^ (- e2)) by (apply pow2_pos; lia).
    split.
    + apply Z.div_le_lower_bound; lia.
    + apply Z.div_le_upper_bound; [lia|].
      assert (Z.min (F + 1) (Z.of_nat n) * 2 ^ (- e2) <= (F + 1) * 2 ^ (- e2))
        by (apply Z.mul_le_mono_nonneg_r; lia).
      lia.
Qed.

Lemma compute_n_test_zero (n : nat) :
  Z.of_nat n < 2 ^ 53 -> compute_n_test n float_zero = Ok 0.
Proof.
  intros Hn. destruct (decide (Z.of_nat n = 0)) as [Hz|Hnz].
  - by rewrite (compute_n_test_Ok n _ float_zero) by (by rewrite Hz).
  - destruct (float_of_int_exact (Z.of_nat n)) as (mx & ex & Hx & _); [lia|].
    by rewrite (compute_n_test_Ok n _ _ Hx).
Qed.

Lemma compute_n_test_one (n : nat) :
  Z.of_nat n < 2 ^ 53 -> compute_n_test n float_one = Ok (Z.of_nat n).
Proof.
  intros Hn. destruct (decide (Z.of_nat n = 0)) as [Hz|Hnz].
  - rewrite (compute_n_test_Ok n _ float_zero) by (by rewrite Hz). by rewrite Hz.
  - destruct (float_of_int_exact (Z.of_nat n)) as (mx & ex & Hx & Hb & Hex & Hmx); [lia|].
    rewrite (compute_n_test_Ok n _ _ Hx), SFmul_one by done.
    by apply int_of_float_value.
Qed.

Lemma compute_n_test_empty (r : spec_float) :
  is_finite r = true -> compute_n_test 0 r = Ok 0.
Proof. by destruct r. Qed.

(** The product is the binary64 one, rounded to the nearest float: with
    the double nearest to [0.3], whose value is just below [3 / 10], ten
    records give [3]; with the double nearest to [0.29], a hundred give
    [28]. *)
Remark compute_n_test_rounds :
  compute_n_test 10 (S754_finite false 5404319552844595 (-54)) = Ok 3
  /\ 10 * 5404319552844595 < 3 * 2 ^ 54
  /\ compute_n_test 100 (S754_finite false 5224175567749775 (-54)) = Ok 28.
Proof. vm_compute. done. Qed.

(** From [2 ^ 53] on, the conversion of the length rounds: this is where
    the bound of the lemmas above comes from. *)
Remark float_of_int_rounds :
  float_of_int (2 ^ 53 + 1) = float_of_int (2 ^ 53)
  /\ (x ← float_of_int (2 ^ 53 + 3); int_of_float x) = Ok (2 ^ 53 + 4).
Proof. vm_compute. done. Qed.
End Rounding.

(** ** The splitter *)

Section SplitterFacts.
Context (R : Runtime).
Implicit Types (fs : files) (g : rng R) (f lines : list string) (data : list json).

Lemma slice_fmap {A B : Type} (h : A -> B) (k : Z) (x : list A) :
  slice_to k (h <$> x) = h <$> slice_to k x
  /\ slice_from k (h <$> x) = h <$> slice_from k x.
Proof.
  unfold slice_to, slice_from. rewrite length_fmap.
  split; [symmetry; apply fmap_take|symmetry; apply fmap_drop].
Qed.

Lemma lookup_seq_fmap {A : Type} (x : list A) :
  Some <$> x = (x !!.) <$> seq 0 (length x).
Proof.
  apply list_eq. intros i. rewrite !list_lookup_fmap.
  destruct (x !! i) as [a|] eqn:Hi; simpl.
  - rewrite (lookup_seq_lt 0 _ i) by (by eapply lookup_lt_Some). simpl. by rewrite Hi.
  - rewrite lookup_seq_ge; [done|]. by apply lookup_ge_None.
Qed.

Lemma stripped_lines_cons (line : string) f :
  stripped_lines R (line :: f)
  = if nonempty (strip R line) then strip R line :: stripped_lines R f
    else stripped_lines R f.
Proof. unfold stripped_lines. simpl. by destruct (nonempty (strip R line)). Qed.

(** The parse fails when [json.loads] raises on some line, and then with
    an exception [json.loads] raised on a line. *)
Lemma loads_all_Raise lines (e : py_error) :
  loads_all R lines = Raise e ->
  exists line, line ∈ lines /\ json_loads R line = Raise e.
Proof.
  induction lines as [|l lines IH]; simpl; [done|].
  destruct (json_loads R l) as [v|e'] eqn:Hl; simpl.
  - destruct (loads_all R lines) as [data|e'] eqn:Hrest; simpl; [done|].
    intros [= ->]. destruct (IH eq_refl) as (line & Hin & Hbad).
    exists line. split; [by right|done].
  - intros [= <-]. exists l. split; [by left|done].
Qed.

Lemma loads_all_bad lines (line : string) (e : py_error) :
  line ∈ lines -> json_loads R line = Raise e -> exists e', loads_all R lines = Raise e'.
Proof.
  intros Hin Hbad. induction Hin as [l lines|l l' lines Hin IH]; simpl.
  - rewrite Hbad. by exists e.
  - destruct (json_loads R l') as [v|e1]; simpl; [|by exists e1].
    destruct (IH Hbad) as [e2 ->]. by exists e2.
Qed.

(** The exception of the parse is the one [json.loads] raises on the
    first line on which it raises. *)
Lemma loads_all_first_failure f (e : py_error) :
  loads_all R (stripped_lines R f) = Raise e
  <-> exists pre first post,
        f = pre ++ first :: post
        /\ Forall (parses R) pre
        /\ nonempty (strip R first) = true
        /\ json_loads R (strip R first) = Raise e.
Proof.
  induction f as [|l f IH].
  - split; [done|]. intros (pre & first & post & Hf & _). by destruct pre.
  - rewrite stripped_lines_cons. destruct (nonempty (strip R l)) eqn:Hnb.
    + cbn [loads_all]. destruct (json_loads R (strip R l)) as [v|e'] eqn:Hl; simpl.
      * assert (Hrest : (data ← loads_all R (stripped_lines R f); mret (v :: data)) = Raise e
                        <-> loads_all R (stripped_lines R f) = Raise e).
        { destruct (loads_all R (stripped_lines R f)); simpl; [done|].
          split; intros [= ->]; done. }
        rewrite Hrest, IH. split.
        -- intros (pre & first & post & -> & Hpre & Hfirst).
           exists (l :: pre), first, post. split; [done|]. split; [|done].
           constructor; [|done]. intros _. by exists v.
        -- intros (pre & first & post & Hf & Hpre & Hne & Hbad).
           destruct pre as [|l' pre]; simplify_eq/=; [congruence|].
           apply Forall_cons in Hpre as [_ Hpre]. by exists pre, first, post.
      * split.
        -- intros [= <-]. by exists [], l, f.
        -- intros (pre & first & post & Hf & Hpre & Hne & Hbad).
           destruct pre as [|l' pre]; simplify_eq/=; [congruence|].
           apply Forall_cons in Hpre as [Hl' _]. destruct (Hl' Hnb) as [v Hv]. congruence.
    + rewrite IH. split.
      * intros (pre & first & post & -> & Hpre & Hfirst).
        exists (l :: pre), first, post. split; [done|]. split; [|done].
        constructor; [|done]. intros Hl. congruence.
      * intros (pre & first & post & Hf & Hpre & Hne & Hbad).
        destruct pre as [|l' pre]; simplify_eq/=; [congruence|].
        apply Forall_cons in Hpre as [_ Hpre]. by exists pre, first, post.
Qed.

(** The parse succeeds exactly when [json.loads] returns a value for
    every line that is not blank. *)
Lemma loads_all_Ok_iff f :
  (exists data, loads_all R (stripped_lines R f) = Ok data) <-> Forall (parses R) f.
Proof.
  induction f as [|l f IH]; [split; [by constructor|by exists []]|].
  rewrite stripped_lines_cons, Forall_cons, <- IH. unfold parses at 1.
  destruct (nonempty (strip R l)) eqn:Hnb.
  - cbn [loads_all]. destruct (json_loads R (strip R l)) as [v|e'] eqn:Hl; simpl.
    + destruct (loads_all R (stripped_lines R f)) as [data|e]; simpl; split.
      * intros _. split; [by exists v|by exists data].
      * intros _. by exists (v :: data).
      * by intros [? ?].
      * by intros [_ [? ?]].
    + split; [by intros [? ?]|]. intros [Hv _]. destruct (Hv eq_refl) as [? ?]. done.
  - split; [intros H; split; [done|exact H]|by intros [_ H]].
Qed.

(** Where [json.loads] raises nothing but [JSONDecodeError], a line
    that makes the parse fail anywhere in the file makes it fail with
    that exception. *)
Lemma only_decode_errors_elem f (line : string) (e : py_error) :
  only_decode_errors R f -> line ∈ f -> nonempty (strip R line) = true ->
  json_loads R (strip R line) = Raise e -> e = JSONDecodeError.
Proof.
  intros Hall Hin Hnb Hbad. unfold only_decode_errors in Hall.
  rewrite Forall_forall in Hall. by apply (Hall line Hin Hnb e).
Qed.

Lemma elem_of_stripped_lines f (l : string) :
  l ∈ stripped_lines R f <->
  exists line, line ∈ f /\ nonempty (strip R line) = true /\ l = strip R line.
Proof.
  unfold stripped_lines. rewrite list_elem_of_In, in_map_iff. split.
  - intros (line & <- & Hin). apply filter_In in Hin as [Hin Hne].
    exists line. by rewrite list_elem_of_In.
  - intros (line & Hin & Hne & ->). exists line. split; [done|].
    apply filter_In. by rewrite <- list_elem_of_In.
Qed.

Lemma compute_n_test_Raise (n : nat) (r : spec_float) (e : py_error) :
  compute_n_test n r = Raise e -> e <> JSONDecodeError.
Proof.
  unfold compute_n_test.
  destruct (float_of_int (Z.of_nat n)) as [x|e'] eqn:Hx; simpl.
  - destruct (SFmul prec emax x r); simpl; intros [= <-]; done.
  - intros [= <-]. unfold float_of_int in Hx.
    destruct (binary_normalize prec emax (Z.of_nat n) 0 false); by simplify_eq.
Qed.

(** A run that reads and parses its input, and whose ratio gives a size. *)
Lemma split_jsonl_run fs g g' (inp tr te : string) (ratio : spec_float) (seed : Z)
    f data (shuffled : list json) (k : Z) :
  fs !! inp = Some f ->
  loads_all R (stripped_lines R f) = Ok data ->
  shuffle R (seed_state R seed) data = (g', Ok shuffled) ->
  compute_n_test (length data) ratio = Ok k ->
  split_jsonl R fs g inp tr te ratio seed
  = (<[te := write_jsonl R (slice_to k shuffled)]>
       (<[tr := write_jsonl R (slice_from k shuffled)]> fs),
     g', Ok (slice_from k shuffled, slice_to k shuffled)).
Proof.
  intros Hf Hdata Hsh Hk. unfold split_jsonl, read_lines. rewrite Hf, Hdata, Hsh.
  destruct (shuffle_Ok R (seed_state R seed) data) as (y & Hy & Hperm).
  rewrite Hsh in Hy. injection Hy as ->.
  by rewrite (Permutation_length Hperm), Hk.
Qed.

Lemma split_jsonl_Ok_inv fs g (inp tr te : string) (ratio : spec_float) (seed : Z)
    fs' g' (train test : list json) :
  split_jsonl R fs g inp tr te ratio seed = (fs', g', Ok (train, test)) ->
  exists f data shuffled k,
    fs !! inp = Some f
    /\ loads_all R (stripped_lines R f) = Ok data
    /\ shuffle R (seed_state R seed) data = (g', Ok shuffled)
    /\ shuffled ≡ₚ data
    /\ compute_n_test (length data) ratio = Ok k
    /\ train = slice_from k shuffled
    /\ test = slice_to k shuffled
    /\ fs' = <[te := write_jsonl R test]> (<[tr := write_jsonl R train]> fs).
Proof.
  unfold split_jsonl, read_lines.
  destruct (fs !! inp) as [f|] eqn:Hf; [|done].
  destruct (loads_all R (stripped_lines R f)) as [data|e] eqn:Hdata; [|done].
  destruct (shuffle_Ok R (seed_state R seed) data) as (shuffled & Hy & Hperm).
  destruct (shuffle R (seed_state R seed) data) as [g'' r] eqn:Hsh.
  simpl in Hy. subst r. rewrite (Permutation_length Hperm).
  destruct (compute_n_test (length data) ratio) as [k|e] eqn:Hk; [|done].
  intros [= <- <- <- <-]. by exists f, data, shuffled, k.
Qed.
End SplitterFacts.

(** ** The claims about the splitter *)

(** C1. When the splitter succeeds, the train and test outputs partition
    the input dataset: together they are a permutation of it, their
    lengths add up to its length, and they take their records from two
    lists of input positions that have no position in common and
    together are all the positions.  The two files written hold these
    two lists of records. *)
Theorem split_partition (R : Runtime) (fs fs' : files) (g g' : rng R)
    (inp tr te : string) (ratio : spec_float) (seed : Z) (train test : list json) :
  split_jsonl R fs g inp tr te ratio seed = (fs', g', Ok (train, test)) ->
  exists f data,
    fs !! inp = Some f
    /\ loads_all R (stripped_lines R f) = Ok data
    /\ fs' = <[te := write_jsonl R test]> (<[tr := write_jsonl R train]> fs)
    /\ train ++ test ≡ₚ data
    /\ (length train + length test)%nat = length data
    /\ exists train_ix test_ix : list nat,
         Some <$> train = (data !!.) <$> train_ix
         /\ Some <$> test = (data !!.) <$> test_ix
         /\ NoDup (train_ix ++ test_ix)
         /\ train_ix ++ test_ix ≡ₚ seq 0 (length data).
Proof.
  intros Hrun.
  destruct (split_jsonl_Ok_inv R _ _ _ _ _ _ _ _ _ _ _ Hrun)
    as (f & data & shuffled & k & Hf & Hdata & Hshuf & Hshp & Hk & -> & -> & ->).
  exists f, data. split; [done|]. split; [done|]. split; [done|].
  set (g0 := seed_state R seed) in *.
  split; [|split].
  - by rewrite Permutation_app_comm, slice_app.
  - rewrite Nat.add_comm, <- length_app, slice_app. by apply Permutation_length.
  - (* the same draws shuffle the positions [0 .. n-1] *)
    destruct (shuffle_Ok R g0 (seq 0 (length data))) as (p & Hp & Hpp).
    destruct (shuffle R g0 (seq 0 (length data))) as [gp rp] eqn:Hps.
    simpl in Hp. subst rp.
    assert (Hsh : Some <$> shuffled = (data !!.) <$> p).
    { apply (shuffle_fmap R (data !!.)) in Hps.
      apply (shuffle_fmap R Some) in Hshuf.
      rewrite <- lookup_seq_fmap, Hshuf in Hps. by injection Hps. }
    assert (Hperm : slice_from k p ++ slice_to k p ≡ₚ seq 0 (length data)).
    { by rewrite Permutation_app_comm, slice_app. }
    exists (slice_from k p), (slice_to k p). split_and!.
    + by rewrite <- (proj2 (slice_fmap _ k _)), Hsh, (proj2 (slice_fmap _ k _)).
    + by rewrite <- (proj1 (slice_fmap _ k _)), Hsh, (proj1 (slice_fmap _ k _)).
    + rewrite Hperm. apply NoDup_seq.
    + done.
Qed.

Lemma split_partition_witness :
  Sample.six_run
  = (Sample.six_run.1.1, Sample.six_run.1.2,
     Ok ([JInt 3; JInt 6; JInt 2; JInt 5; JInt 4], [JInt 1]))
  /\ exists f data,
       Sample.fs_six !! "in" = Some f
       /\ loads_all Sample.runtime (stripped_lines Sample.runtime f) = Ok data
       /\ Sample.six_run.1.1
          = <["test" := write_jsonl Sample.runtime [JInt 1]]>
              (<["train" := write_jsonl Sample.runtime
                              [JInt 3; JInt 6; JInt 2; JInt 5; JInt 4]]> Sample.fs_six)
       /\ [JInt 3; JInt 6; JInt 2; JInt 5; JInt 4] ++ [JInt 1] ≡ₚ data
       /\ (5 + 1)%nat = length data
       /\ exists train_ix test_ix : list nat,
            Some <$> [JInt 3; JInt 6; JInt 2; JInt 5; JInt 4] = (data !!.) <$> train_ix
            /\ Some <$> [JInt 1] = (data !!.) <$> test_ix
            /\ NoDup (train_ix ++ test_ix)
            /\ train_ix ++ test_ix ≡ₚ seq 0 (length data).
Proof.
  assert (Hrun : Sample.six_run
                 = (Sample.six_run.1.1, Sample.six_run.1.2,
                    Ok ([JInt 3; JInt 6; JInt 2; JInt 5; JInt 4], [JInt 1])))
    by evaluate.
  split; [exact Hrun|].
  exact (split_partition Sample.runtime _ _ _ _ _ _ _ _ _ _ _ Hrun).
Defined.

Lemma triple_eta {A B C : Type} (x : A * B * C) : x = (x.1.1, x.1.2, x.2).
Proof. by destruct x as [[a b] c]. Qed.

(** C2. Two runs of the splitter on the same input contents with the same
    seed and the same ratio end the same way, with the same train and test
    records and, when they succeed, the same train and test files and the
    same generator state, whatever the other files and the state of the
    generator were when each run started. *)
Theorem split_deterministic (R : Runtime) (fs1 fs2 fs1' fs2' : files)
    (g1 g2 g1' g2' : rng R) (inp1 inp2 tr te : string) (ratio : spec_float) (seed : Z)
    (o1 o2 : outcome (list json * list json)) :
  fs1 !! inp1 = fs2 !! inp2 ->
  split_jsonl R fs1 g1 inp1 tr te ratio seed = (fs1', g1', o1) ->
  split_jsonl R fs2 g2 inp2 tr te ratio seed = (fs2', g2', o2) ->
  o1 = o2
  /\ forall res, o1 = Ok res ->
       fs1' !! tr = fs2' !! tr /\ fs1' !! te = fs2' !! te /\ g1' = g2'.
Proof.
  intros Hin. unfold split_jsonl, read_lines. rewrite Hin.
  destruct (fs2 !! inp2) as [f|]; [|by intros [= <- <- <-] [= <- <- <-]].
  destruct (loads_all R (stripped_lines R f)) as [data|e];
    [|by intros [= <- <- <-] [= <- <- <-]].
  destruct (shuffle R (seed_state R seed) data) as [g [shuffled|e]];
    [|by intros [= <- <- <-] [= <- <- <-]].
  destruct (compute_n_test (length shuffled) ratio) as [k|e];
    [|by intros [= <- <- <-] [= <- <- <-]].
  intros [= <- <- <-] [= <- <- <-]. split; [done|]. intros res _.
  rewrite !lookup_insert. by repeat case_decide.
Qed.

Lemma split_deterministic_witness :
  Sample.fs_six !! "in" = Sample.fs_copy !! "copy"
  /\ Sample.six_run.2 = Sample.copy_run.2
  /\ forall res, Sample.six_run.2 = Ok res ->
       Sample.six_run.1.1 !! "train" = Sample.copy_run.1.1 !! "train"
       /\ Sample.six_run.1.1 !! "test" = Sample.copy_run.1.1 !! "test"
       /\ Sample.six_run.1.2 = Sample.copy_run.1.2.
Proof.
  assert (Hin : Sample.fs_six !! "in" = Sample.fs_copy !! "copy") by evaluate.
  split; [exact Hin|].
  exact (split_deterministic Sample.runtime _ _ _ _ 0 7 _ _ "in" "copy"
           "train" "test" Sample.ratio_0_2 42 _ _ Hin
           (triple_eta Sample.six_run) (triple_eta Sample.copy_run)).
Defined.

(** C3, as stated, fails: the product is a float product, rounded to the
    nearest float, and may reach the integer above the exact product.
    With ten records and the double nearest to [0.3], whose value is
    below three tenths, [n_total * test_ratio] is below [3] and its
    floor is [2], yet the splitter sends three records to test and seven
    to train.  And from [2 ^ 53] records on the number of records itself
    is rounded: for [2 ^ 53 + 3] records and the ratio [1.0] the product
    is [2 ^ 53 + 4], more than there are records. *)
Lemma split_size_is_not_the_exact_floor :
  Cases.fs_ten !! "in" = Some Cases.ten_lines
  /\ length (valid_records Sample.runtime Cases.ten_lines) = 10%nat
  /\ unit_ratio Cases.ratio_0_3 = true
  /\ Cases.ratio_0_3 = S754_finite false 5404319552844595 (-54)
  /\ 2 * 2 ^ 54 <= 10 * 5404319552844595 < 3 * 2 ^ 54
  /\ exact_floor 10 Cases.ratio_0_3 = 2
  /\ compute_n_test 10 Cases.ratio_0_3 = Ok 3
  /\ (split_jsonl Sample.runtime Cases.fs_ten 0 "in" "train" "test" Cases.ratio_0_3 42).2
     = Ok ([JInt 6; JInt 3; JInt 7; JInt 10; JInt 2; JInt 9; JInt 8],
           [JInt 5; JInt 4; JInt 1])
  /\ Z.of_nat (length [JInt 5; JInt 4; JInt 1]) <> exact_floor 10 Cases.ratio_0_3
  /\ (x ← float_of_int (2 ^ 53 + 3); int_of_float (SFmul prec emax x float_one))
     = Ok (2 ^ 53 + 4)
  /\ exact_floor (2 ^ 53 + 3) float_one = 2 ^ 53 + 3.
Proof. vm_compute. repeat split; congruence. Qed.

(** C3, amended. For a dataset of [n_total] records, fewer than [2 ^ 53],
    and a ratio in [[0, 1]], the splitter succeeds; [n_test] is the
    floor of the binary64 product of [n_total] and the ratio, rounded to
    the nearest float, which is the floor of [n_total * test_ratio] or
    the integer above it, and lies between [0] and [n_total]; the test
    set is the first [n_test] records of the shuffled sequence and the
    train set the remaining [n_total - n_test], in shuffled order. *)
Theorem split_sizes (R : Runtime) (fs : files) (g : rng R) (inp tr te : string)
    (ratio : spec_float) (seed : Z) (f : list string) (data : list json) :
  fs !! inp = Some f ->
  loads_all R (stripped_lines R f) = Ok data ->
  unit_ratio ratio = true ->
  Z.of_nat (length data) < 2 ^ 53 ->
  exists (n_test : Z) (g' : rng R) (shuffled : list json),
    floor_of_float
      (SFmul prec emax (binary_normalize prec emax (Z.of_nat (length data)) 0 false) ratio)
    = Some n_test
    /\ exact_floor (Z.of_nat (length data)) ratio <= n_test
       <= exact_floor (Z.of_nat (length data)) ratio + 1
    /\ 0 <= n_test <= Z.of_nat (length data)
    /\ shuffle R (seed_state R seed) data = (g', Ok shuffled)
    /\ let test := take (Z.to_nat n_test) shuffled in
       let train := drop (Z.to_nat n_test) shuffled in
       split_jsonl R fs g inp tr te ratio seed
       = (<[te := write_jsonl R test]> (<[tr := write_jsonl R train]> fs),
          g', Ok (train, test))
       /\ Z.of_nat (length test) = n_test
       /\ Z.of_nat (length train) = Z.of_nat (length data) - n_test.
Proof.
  intros Hf Hdata Hr Hn.
  destruct (compute_n_test_floor (length data) ratio Hn Hr) as (k & Hk & Hfl & Hk0 & Hex).
  destruct (shuffle_Ok R (seed_state R seed) data) as (shuffled & Hy & Hperm).
  destruct (shuffle R (seed_state R seed) data) as [g' r] eqn:Hsh.
  simpl in Hy. subst r.
  exists k, g', shuffled. do 4 (split; [done|]). cbv zeta.
  rewrite (split_jsonl_run R fs g g' inp tr te ratio seed f data shuffled k Hf Hdata Hsh Hk).
  destruct (slice_nonneg k shuffled) as [-> ->]; [lia|].
  split; [done|]. rewrite length_take, length_drop, (Permutation_length Hperm). lia.
Qed.

Lemma split_sizes_witness :
  Sample.fs_six !! "in" = Some Sample.six_lines
  /\ loads_all Sample.runtime (stripped_lines Sample.runtime Sample.six_lines)
     = Ok [JInt 1; JInt 2; JInt 3; JInt 4; JInt 5; JInt 6]
  /\ unit_ratio Sample.ratio_0_2 = true
  /\ Z.of_nat (length [JInt 1; JInt 2; JInt 3; JInt 4; JInt 5; JInt 6]) < 2 ^ 53
  /\ exact_floor 6 Sample.ratio_0_2 = 1
  /\ exists n_test : Z,
       exact_floor 6 Sample.ratio_0_2 <= n_test <= exact_floor 6 Sample.ratio_0_2 + 1
       /\ Sample.six_run.2
          = Ok (drop (Z.to_nat n_test) [JInt 1; JInt 3; JInt 6; JInt 2; JInt 5; JInt 4],
                take (Z.to_nat n_test) [JInt 1; JInt 3; JInt 6; JInt 2; JInt 5; JInt 4]).
Proof.
  assert (Hf : Sample.fs_six !! "in" = Some Sample.six_lines) by evaluate.
  assert (Hdata : loads_all Sample.runtime (stripped_lines Sample.runtime Sample.six_lines)
                  = Ok [JInt 1; JInt 2; JInt 3; JInt 4; JInt 5; JInt 6])
    by evaluate.
  assert (Hr : unit_ratio Sample.ratio_0_2 = true) by evaluate.
  assert (Hn : Z.of_nat (length [JInt 1; JInt 2; JInt 3; JInt 4; JInt 5; JInt 6]) < 2 ^ 53)
    by evaluate.
  split; [exact Hf|]. split; [exact Hdata|]. split; [exact Hr|]. split; [exact Hn|].
  split; [evaluate|].
  destruct (split_sizes Sample.runtime Sample.fs_six 0 "in" "train" "test"
              Sample.ratio_0_2 42 _ _ Hf Hdata Hr Hn)
    as (n_test & g' & shuffled & Hfl & Hex & Hk & Hsh & Hrun & _).
  exists n_test. split; [exact Hex|].
  unfold Sample.six_run. rewrite Hrun.
  assert (Hs : shuffled = [JInt 1; JInt 3; JInt 6; JInt 2; JInt 5; JInt 4])
    by (vm_compute in Hsh; by injection Hsh).
  by rewrite Hs.
Defined.

(** C7. When [json.loads] raises on some non-blank line of the input, as
    it does on a line that is not JSON, the splitter raises, at the
    first such line and with the exception of that line, and leaves
    every file as it was: neither the train file nor the test file is
    created or modified, and the generator is not reseeded.  The
    exception is the parse error [json.JSONDecodeError] when
    [json.loads] raises no other on the lines of the file. *)
Theorem split_parse_failure_writes_nothing (R : Runtime) (fs : files) (g : rng R)
    (inp tr te : string) (ratio : spec_float) (seed : Z)
    (f : list string) (line : string) (e0 : py_error) :
  fs !! inp = Some f ->
  line ∈ f ->
  nonempty (strip R line) = true ->
  json_loads R (strip R line) = Raise e0 ->
  exists pre first post e,
    f = pre ++ first :: post
    /\ Forall (parses R) pre
    /\ nonempty (strip R first) = true
    /\ json_loads R (strip R first) = Raise e
    /\ split_jsonl R fs g inp tr te ratio seed = (fs, g, Raise e)
    /\ (only_decode_errors R f -> e = JSONDecodeError).
Proof.
  intros Hf Hin Hne Hbad.
  destruct (loads_all_bad R (stripped_lines R f) (strip R line) e0) as [e He]; [|done|].
  { apply elem_of_stripped_lines. by exists line. }
  pose proof He as Hfirst.
  apply loads_all_first_failure in Hfirst as (pre & first & post & -> & Hpre & Hnb & Hraise).
  exists pre, first, post, e. do 4 (split; [done|]). split.
  - unfold split_jsonl, read_lines. by rewrite Hf, He.
  - intros Hall. apply (only_decode_errors_elem R _ first e Hall); [|done..].
    apply elem_of_app. right. by left.
Qed.

Lemma split_parse_failure_writes_nothing_witness :
  Sample.fs_bad !! "in" = Some ["1" +:+ newline; "{oops" +:+ newline; "2" +:+ newline]
  /\ ("{oops" +:+ newline) ∈ ["1" +:+ newline; "{oops" +:+ newline; "2" +:+ newline]
  /\ nonempty (Sample.strip ("{oops" +:+ newline)) = true
  /\ Sample.json_loads (Sample.strip ("{oops" +:+ newline)) = Raise JSONDecodeError
  /\ only_decode_errors Sample.runtime
       ["1" +:+ newline; "{oops" +:+ newline; "2" +:+ newline]
  /\ split_jsonl Sample.runtime Sample.fs_bad 0 "in" "train" "test" Sample.ratio_0_2 42
     = (Sample.fs_bad, 0, Raise JSONDecodeError).
Proof.
  assert (Hf : Sample.fs_bad !! "in"
               = Some ["1" +:+ newline; "{oops" +:+ newline; "2" +:+ newline])
    by evaluate.
  assert (Hin : ("{oops" +:+ newline)
                ∈ ["1" +:+ newline; "{oops" +:+ newline; "2" +:+ newline])
    by (apply list_elem_of_further, list_elem_of_here).
  assert (Hne : nonempty (Sample.strip ("{oops" +:+ newline)) = true)
    by evaluate.
  assert (Hbad : Sample.json_loads (Sample.strip ("{oops" +:+ newline))
                 = Raise JSONDecodeError)
    by evaluate.
  assert (Hdec : only_decode_errors Sample.runtime
                   ["1" +:+ newline; "{oops" +:+ newline; "2" +:+ newline])
    by decode_errors.
  split; [exact Hf|]. split; [exact Hin|]. split; [exact Hne|]. split; [exact Hbad|].
  split; [exact Hdec|].
  destruct (split_parse_failure_writes_nothing Sample.runtime Sample.fs_bad 0
              "in" "train" "test" Sample.ratio_0_2 42 _ _ _ Hf Hin Hne Hbad)
    as (pre & first & post & e & _ & _ & _ & _ & Hrun & He).
  rewrite Hrun, (He Hdec). reflexivity.
Defined.

(** An integer of 4301 digits is valid JSON, but [json.loads] raises
    [ValueError] on it: the splitter ends with that exception, whatever
    the lines after it hold. *)
Example split_long_integer :
  Sample.json_loads (Sample.strip (Sample.long_digits +:+ newline)) = Raise ValueError
  /\ split_jsonl Sample.runtime Sample.fs_long_bad 0 "in" "train" "test" Sample.ratio_0_2 42
     = (Sample.fs_long_bad, 0, Raise ValueError).
Proof. split; evaluate. Qed.

(** C8, as stated, fails: a line holding the JSON number [5] is not
    blank and is not a JSON object, and the splitter succeeds on it. *)
Lemma split_accepts_non_object :
  (exists line,
     Sample.fs_five !! "in" = Some [line]
     /\ nonempty (Sample.strip line) = true
     /\ Sample.json_loads (Sample.strip line) = Ok (JInt 5)
     /\ is_dict (JInt 5) = false)
  /\ (split_jsonl Sample.runtime Sample.fs_five 0 "in" "train" "test"
        Sample.ratio_0_2 42).2 = Ok ([JInt 5], [])
  /\ (split_jsonl Sample.runtime Sample.fs_five 0 "in" "train" "test"
        Sample.ratio_0_2 42).2 <> Raise JSONDecodeError.
Proof.
  split; [exists ("5" +:+ newline); vm_compute; done|].
  split; [vm_compute; reflexivity|vm_compute; discriminate].
Qed.

(** C8, amended. The splitter fails at the first non-blank line on which
    [json.loads] raises, with the exception of that line and before
    anything else is done: it raises the parse error
    [json.JSONDecodeError] exactly when that line is one that is not
    valid JSON.  Its parse succeeds exactly when [json.loads] returns a
    value for every non-blank line, object or not, and the splitter
    succeeds only then.  Where [json.loads] raises nothing but
    [JSONDecodeError], the splitter raises it exactly when some
    non-blank line is not valid JSON. *)
Theorem split_fails_iff_invalid_json (R : Runtime) (fs : files) (g : rng R)
    (inp tr te : string) (ratio : spec_float) (seed : Z) (f : list string) :
  fs !! inp = Some f ->
  (forall e,
     (exists pre first post,
        f = pre ++ first :: post
        /\ Forall (parses R) pre
        /\ nonempty (strip R first) = true
        /\ json_loads R (strip R first) = Raise e) ->
     split_jsonl R fs g inp tr te ratio seed = (fs, g, Raise e))
  /\ ((split_jsonl R fs g inp tr te ratio seed).2 = Raise JSONDecodeError
      <-> exists pre first post,
            f = pre ++ first :: post
            /\ Forall (parses R) pre
            /\ nonempty (strip R first) = true
            /\ json_loads R (strip R first) = Raise JSONDecodeError)
  /\ ((exists data, loads_all R (stripped_lines R f) = Ok data) <-> Forall (parses R) f)
  /\ (forall res, (split_jsonl R fs g inp tr te ratio seed).2 = Ok res -> Forall (parses R) f)
  /\ (only_decode_errors R f ->
      ((split_jsonl R fs g inp tr te ratio seed).2 = Raise JSONDecodeError
       <-> exists line,
             line ∈ f /\ nonempty (strip R line) = true
             /\ json_loads R (strip R line) = Raise JSONDecodeError)).
Proof.
  intros Hf.
  assert (Hfail : forall e, loads_all R (stripped_lines R f) = Raise e ->
            split_jsonl R fs g inp tr te ratio seed = (fs, g, Raise e)).
  { intros e He. unfold split_jsonl, read_lines. by rewrite Hf, He. }
  assert (Hdecode : (split_jsonl R fs g inp tr te ratio seed).2 = Raise JSONDecodeError
                    <-> loads_all R (stripped_lines R f) = Raise JSONDecodeError).
  { split; [|intros He; by rewrite (Hfail _ He)].
    unfold split_jsonl, read_lines. rewrite Hf.
    destruct (loads_all R (stripped_lines R f)) as [data|e] eqn:Hdata;
      [|by intros [= ->]].
    destruct (shuffle_Ok R (seed_state R seed) data) as (shuffled & Hy & _).
    destruct (shuffle R (seed_state R seed) data) as [g' r]. simpl in Hy. subst r.
    destruct (compute_n_test (length shuffled) ratio) as [k|e] eqn:Hk; [done|].
    simpl. intros [= ->]. by apply compute_n_test_Raise in Hk. }
  split; [|split; [|split; [|split]]].
  - intros e He. by apply Hfail, loads_all_first_failure.
  - by rewrite Hdecode, loads_all_first_failure.
  - apply loads_all_Ok_iff.
  - intros res Hres. apply loads_all_Ok_iff.
    destruct (loads_all R (stripped_lines R f)) as [data|e] eqn:Hdata; [by exists data|].
    by rewrite (Hfail e eq_refl) in Hres.
  - intros Hall. rewrite Hdecode. split.
    + intros He. apply loads_all_Raise in He as (l & Hl & Hbad).
      apply elem_of_stripped_lines in Hl as (line & Hin & Hne & ->). by exists line.
    + intros (line & Hin & Hne & Hbad).
      destruct (loads_all_bad R (stripped_lines R f) (strip R line) JSONDecodeError)
        as [e He]; [|done|].
      { apply elem_of_stripped_lines. by exists line. }
      rewrite He. f_equal.
      apply loads_all_Raise in He as (l & Hl & Hbad').
      apply elem_of_stripped_lines in Hl as (line' & Hin' & Hne' & ->).
      by apply (only_decode_errors_elem R f line' e Hall).
Qed.

Lemma split_fails_iff_invalid_json_witness :
  Sample.fs_bad !! "in" = Some ["1" +:+ newline; "{oops" +:+ newline; "2" +:+ newline]
  /\ (["1" +:+ newline; "{oops" +:+ newline; "2" +:+ newline]
      = ["1" +:+ newline] ++ ("{oops" +:+ newline) :: ["2" +:+ newline]
      /\ Forall (parses Sample.runtime) ["1" +:+ newline]
      /\ nonempty (Sample.strip ("{oops" +:+ newline)) = true
      /\ Sample.json_loads (Sample.strip ("{oops" +:+ newline)) = Raise JSONDecodeError)
  /\ split_jsonl Sample.runtime Sample.fs_bad 0 "in" "train" "test" Sample.ratio_0_2 42
     = (Sample.fs_bad, 0, Raise JSONDecodeError)
  /\ ~ Forall (parses Sample.runtime) ["1" +:+ newline; "{oops" +:+ newline; "2" +:+ newline].
Proof.
  assert (Hf : Sample.fs_bad !! "in"
               = Some ["1" +:+ newline; "{oops" +:+ newline; "2" +:+ newline])
    by evaluate.
  assert (Hfirst : ["1" +:+ newline; "{oops" +:+ newline; "2" +:+ newline]
                   = ["1" +:+ newline] ++ ("{oops" +:+ newline) :: ["2" +:+ newline]
                   /\ Forall (parses Sample.runtime) ["1" +:+ newline]
                   /\ nonempty (Sample.strip ("{oops" +:+ newline)) = true
                   /\ Sample.json_loads (Sample.strip ("{oops" +:+ newline))
                      = Raise JSONDecodeError).
  { split; [reflexivity|]. split; [|split; evaluate].
    apply Forall_cons. split; [|by apply Forall_nil]. intros _. exists (JInt 1). evaluate. }
  split; [exact Hf|]. split; [exact Hfirst|].
  destruct (split_fails_iff_invalid_json Sample.runtime Sample.fs_bad 0
              "in" "train" "test" Sample.ratio_0_2 42 _ Hf)
    as (Hfail & _ & Hparse & _).
  split.
  - apply Hfail. eexists _, _, _. exact Hfirst.
  - intros Hall. apply Hparse in Hall as [data Hdata]. vm_compute in Hdata. discriminate.
Defined.

(** C9. A ratio of [0.0] gives an empty test set and every record to
    train, a ratio of [1.0] gives an empty train set and every record to
    test, and an empty input gives two empty outputs without error, for
    every finite ratio.  The dataset has fewer than [2 ^ 53] records, as
    every list that fits in memory has: below that bound the length
    converts to a float exactly. *)
Theorem split_boundaries (R : Runtime) (fs : files) (g : rng R) (inp tr te : string)
    (seed : Z) (f : list string) (data : list json) :
  fs !! inp = Some f ->
  loads_all R (stripped_lines R f) = Ok data ->
  Z.of_nat (length data) < 2 ^ 53 ->
  exists (g' : rng R) (shuffled : list json),
    shuffle R (seed_state R seed) data = (g', Ok shuffled)
    /\ split_jsonl R fs g inp tr te float_zero seed
       = (<[te := []]> (<[tr := write_jsonl R shuffled]> fs), g', Ok (shuffled, []))
    /\ split_jsonl R fs g inp tr te float_one seed
       = (<[te := write_jsonl R shuffled]> (<[tr := []]> fs), g', Ok ([], shuffled))
    /\ (data = [] ->
        forall ratio, is_finite ratio = true ->
          split_jsonl R fs g inp tr te ratio seed
          = (<[te := []]> (<[tr := []]> fs), seed_state R seed, Ok ([], []))).
Proof.
  intros Hf Hdata Hn.
  destruct (shuffle_Ok R (seed_state R seed) data) as (shuffled & Hy & Hperm).
  destruct (shuffle R (seed_state R seed) data) as [g' r] eqn:Hsh.
  simpl in Hy. subst r. pose proof (Permutation_length Hperm) as Hlen.
  exists g', shuffled. split; [done|]. split; [|split].
  - rewrite (split_jsonl_run R fs g g' inp tr te _ seed f data shuffled 0 Hf Hdata Hsh
               (compute_n_test_zero _ Hn)).
    destruct (slice_nonneg 0 shuffled) as [-> ->]; [lia|]. done.
  - rewrite (split_jsonl_run R fs g g' inp tr te _ seed f data shuffled _ Hf Hdata Hsh
               (compute_n_test_one _ Hn)).
    destruct (slice_nonneg (Z.of_nat (length data)) shuffled) as [-> ->]; [lia|].
    rewrite Nat2Z.id, <- Hlen. by rewrite take_ge, drop_ge by lia.
  - intros -> ratio Hfin.
    by rewrite (split_jsonl_run R fs g _ inp tr te ratio seed f [] [] 0 Hf Hdata
                  (shuffle_nil R _) (compute_n_test_empty ratio Hfin)).
Qed.

Lemma split_boundaries_witness :
  (Sample.fs_six !! "in" = Some Sample.six_lines
   /\ loads_all Sample.runtime (stripped_lines Sample.runtime Sample.six_lines)
      = Ok [JInt 1; JInt 2; JInt 3; JInt 4; JInt 5; JInt 6]
   /\ Z.of_nat (length [JInt 1; JInt 2; JInt 3; JInt 4; JInt 5; JInt 6]) < 2 ^ 53
   /\ (split_jsonl Sample.runtime Sample.fs_six 0 "in" "train" "test" float_zero 42).2
      = Ok ([JInt 1; JInt 3; JInt 6; JInt 2; JInt 5; JInt 4], [])
   /\ (split_jsonl Sample.runtime Sample.fs_six 0 "in" "train" "test" float_one 42).2
      = Ok ([], [JInt 1; JInt 3; JInt 6; JInt 2; JInt 5; JInt 4]))
  /\ (Sample.fs_empty !! "in" = Some []
      /\ loads_all Sample.runtime (stripped_lines Sample.runtime []) = Ok []
      /\ is_finite Sample.ratio_0_2 = true
      /\ (split_jsonl Sample.runtime Sample.fs_empty 0 "in" "train" "test"
            Sample.ratio_0_2 42).2 = Ok ([], [])).
Proof.
  assert (Hf : Sample.fs_six !! "in" = Some Sample.six_lines) by evaluate.
  assert (Hdata : loads_all Sample.runtime (stripped_lines Sample.runtime Sample.six_lines)
                  = Ok [JInt 1; JInt 2; JInt 3; JInt 4; JInt 5; JInt 6])
    by evaluate.
  assert (Hn : Z.of_nat (length [JInt 1; JInt 2; JInt 3; JInt 4; JInt 5; JInt 6]) < 2 ^ 53)
    by evaluate.
  assert (Hf0 : Sample.fs_empty !! "in" = Some []) by evaluate.
  assert (Hdata0 : loads_all Sample.runtime (stripped_lines Sample.runtime []) = Ok [])
    by evaluate.
  assert (Hn0 : Z.of_nat (length (@nil json)) < 2 ^ 53) by evaluate.
  assert (Hfin : is_finite Sample.ratio_0_2 = true) by evaluate.
  split.
  - destruct (split_boundaries Sample.runtime Sample.fs_six 0 "in" "train" "test" 42
                _ _ Hf Hdata Hn) as (g' & shuffled & Hsh & H0 & H1 & _).
    split; [exact Hf|]. split; [exact Hdata|]. split; [exact Hn|].
    assert (Hs : shuffled = [JInt 1; JInt 3; JInt 6; JInt 2; JInt 5; JInt 4])
      by (vm_compute in Hsh; by injection Hsh).
    rewrite H0, H1, Hs. split; reflexivity.
  - destruct (split_boundaries Sample.runtime Sample.fs_empty 0 "in" "train" "test" 42
                _ _ Hf0 Hdata0 Hn0) as (g' & shuffled & _ & _ & _ & He).
    split; [exact Hf0|]. split; [exact Hdata0|]. split; [exact Hfin|].
    rewrite (He eq_refl _ Hfin). reflexivity.
Defined.

(** ** The transformers *)

Lemma field_text_get (R : Runtime) (d : list (string * json)) (key : string) :
  py_str R (dict_get d key (JStr "")) = field_text R d key.
Proof.
  unfold field_text. induction d as [|[k v] d IH]; simpl; [done|].
  destruct (String.eqb k key); [by destruct v|done].
Qed.

Lemma field_text_absent (R : Runtime) (d : list (string * json)) (key : string) :
  has_key d key = false -> field_text R d key = "".
Proof.
  unfold field_text, has_key. induction d as [|[k v] d IH]; simpl; [done|].
  destruct (String.eqb k key); [done|]. apply IH.
Qed.

Lemma field_text_string (R : Runtime) (d : list (string * json)) (key s : string) :
  has_key d key = true -> dict_get d key (JStr "") = JStr s -> field_text R d key = s.
Proof. intros _ Hget. by rewrite <- field_text_get, Hget. Qed.

Section TransformFacts.
Context (R : Runtime) (te : json -> outcome json).

Lemma valid_records_cons (line : string) (f : list string) :
  valid_records R (line :: f)
  = if nonempty (strip R line)
    then match json_loads R (strip R line) with
         | Ok v => v :: valid_records R f
         | Raise _ => valid_records R f
         end
    else valid_records R f.
Proof.
  unfold valid_records, parsed. simpl. destruct (nonempty (strip R line)); [|done].
  simpl. by destruct (json_loads R (strip R line)).
Qed.

Lemma only_decode_errors_cons (line : string) (f : list string) :
  only_decode_errors R (line :: f)
  <-> (nonempty (strip R line) = true ->
       forall e, json_loads R (strip R line) = Raise e -> e = JSONDecodeError)
      /\ only_decode_errors R f.
Proof. apply Forall_cons. Qed.

Lemma valid_records_length (f : list string) :
  (length (valid_records R f) <= length (List.filter nonempty (map (strip R) f)))%nat.
Proof.
  unfold valid_records.
  generalize (List.filter nonempty (map (strip R) f)). intros ls.
  induction ls as [|l ls IH]; [done|].
  cbn [omap list_omap length]. destruct (parsed R l); cbn [length]; lia.
Qed.

(** Through lines on which [json.loads] raises nothing but
    [JSONDecodeError] and [transform_example] returns, the loop writes
    one line per valid record, in order, and goes on. *)
Lemma transform_lines_prefix (pre rest fout : list string) (outs : list json) :
  only_decode_errors R pre ->
  Forall2 (fun v o => te v = Ok o) (valid_records R pre) outs ->
  transform_lines R te (pre ++ rest) fout = transform_lines R te rest (fout ++ jsonl R outs).
Proof.
  revert fout outs. induction pre as [|l pre IH]; intros fout outs Hdec Hall.
  - inversion Hall; subst. simpl. by rewrite app_nil_r.
  - apply only_decode_errors_cons in Hdec as [Hl Hdec].
    rewrite valid_records_cons in Hall. simpl.
    destruct (nonempty (strip R l)); simpl; [|by apply IH].
    destruct (json_loads R (strip R l)) as [w|e] eqn:Hw.
    + inversion Hall as [|w' o vs outs' Ho Hrest]; subst. rewrite Ho.
      rewrite (IH _ outs' Hdec Hrest). simpl. by rewrite <- app_assoc.
    + rewrite (Hl eq_refl e eq_refl). by apply IH.
Qed.

Lemma transform_lines_ok (f fout : list string) (outs : list json) :
  only_decode_errors R f ->
  Forall2 (fun v o => te v = Ok o) (valid_records R f) outs ->
  transform_lines R te f fout = (fout ++ jsonl R outs, Ok tt).
Proof.
  intros Hdec Hall. rewrite <- (app_nil_r f).
  by rewrite (transform_lines_prefix f [] fout outs Hdec Hall).
Qed.

(** It stops at the first record on which [transform_example] raises. *)
Lemma transform_lines_abort (pre post fout : list string) (line : string)
    (outs : list json) (v : json) (e : py_error) :
  only_decode_errors R pre ->
  Forall2 (fun v o => te v = Ok o) (valid_records R pre) outs ->
  nonempty (strip R line) = true ->
  json_loads R (strip R line) = Ok v ->
  te v = Raise e ->
  transform_lines R te (pre ++ line :: post) fout = (fout ++ jsonl R outs, Raise e).
Proof.
  intros Hdec Hall Hne Hv He. rewrite (transform_lines_prefix pre _ fout outs Hdec Hall).
  simpl. by rewrite Hne, Hv, He.
Qed.

(** And at the first line on which [json.loads] raises another
    exception than [JSONDecodeError]. *)
Lemma transform_lines_uncaught (pre post fout : list string) (line : string)
    (outs : list json) (e : py_error) :
  only_decode_errors R pre ->
  Forall2 (fun v o => te v = Ok o) (valid_records R pre) outs ->
  nonempty (strip R line) = true ->
  json_loads R (strip R line) = Raise e ->
  e <> JSONDecodeError ->
  transform_lines R te (pre ++ line :: post) fout = (fout ++ jsonl R outs, Raise e).
Proof.
  intros Hdec Hall Hne Hv He. rewrite (transform_lines_prefix pre _ fout outs Hdec Hall).
  simpl. rewrite Hne, Hv. by destruct e.
Qed.

Lemma transform_file_with_run (fs : files) (inp out : string) (f : list string) :
  fs !! inp = Some f -> inp <> out ->
  transform_file_with R te fs inp out
  = (<[out := (transform_lines R te f []).1]> fs, (transform_lines R te f []).2).
Proof.
  intros Hf Hne. unfold transform_file_with, read_lines. rewrite Hf.
  rewrite lookup_insert_ne, Hf by done. simpl.
  destruct (transform_lines R te f []) as [fout r]. simpl.
  by rewrite insert_insert_eq.
Qed.
End TransformFacts.

Lemma conversational_dicts (R : Runtime) (vs : list json) :
  Forall (fun v => is_dict v = true) vs ->
  exists outs, Forall2 (fun v o => Conversational.transform_example R v = Ok o) vs outs.
Proof.
  induction 1 as [|v vs Hv _ [outs IH]]; [by exists []|].
  destruct v; try done. eexists (_ :: outs). by constructor.
Qed.

Lemma standard_dicts (R : Runtime) (vs : list json) :
  Forall (fun v => is_dict v = true) vs ->
  exists outs, Forall2 (fun v o => Standard.transform_example R v = Ok o) vs outs.
Proof.
  induction 1 as [|v vs Hv _ [outs IH]]; [by exists []|].
  destruct v; try done. eexists (_ :: outs). by constructor.
Qed.

(** ** The claims about the transformers *)

(** C4, as stated, fails: for the record [{"response": null}] the
    assistant content is the string [None], which is not the field. *)
Lemma conversational_response_not_verbatim :
  Sample.json_loads (Sample.null_field "response") = Ok (JDict [("response", JNull)])
  /\ Conversational.transform_example Sample.runtime (JDict [("response", JNull)])
     = Ok (JDict [("messages", JList [
             JDict [("role", JStr "user"); ("content", JStr (user_template "" ""))];
             JDict [("role", JStr "assistant"); ("content", JStr "None")]])])
  /\ dict_get [("response", JNull)] "response" (JStr "") = JNull
  /\ JStr "None" <> JNull.
Proof. vm_compute. done. Qed.

(** C4, amended. For every record the conversational transformer returns
    [{"messages": [m1, m2]}], where [m1] has role [user] and as content the
    template filled with the texts of the query and context fields, and
    [m2] has role [assistant] and as content the text of the response
    field.  The text of a field is empty when the key is absent, the field
    itself when it is a string, and what Python's [str] gives otherwise. *)
Theorem conversational_transform_example (R : Runtime) (d : list (string * json)) :
  Conversational.transform_example R (JDict d)
  = Ok (JDict [("messages", JList [
          JDict [("role", JStr "user");
                 ("content", JStr (user_template (field_text R d "query")
                                                 (field_text R d "context")))];
          JDict [("role", JStr "assistant");
                 ("content", JStr (field_text R d "response"))]])])
  /\ (forall key, has_key d key = false -> field_text R d key = "")
  /\ (forall key s, dict_get d key (JStr "") = JStr s -> field_text R d key = s)
  /\ (forall key v, dict_get d key (JStr "") = v -> (forall s, v <> JStr s) ->
        field_text R d key = py_repr R v).
Proof.
  split; [|split; [|split]].
  - unfold Conversational.transform_example, user_template, Conversational.instruction.
    by rewrite !field_text_get.
  - intros key. apply field_text_absent.
  - intros key s Hget. by rewrite <- field_text_get, Hget.
  - intros key v Hget Hv. rewrite <- field_text_get, Hget.
    destruct v; try done. by destruct (Hv s).
Qed.

(** The end-to-end example of the specification. *)
Lemma conversational_sofa :
  Conversational.transform_example Sample.runtime Sample.sofa
  = Ok (JDict [("messages", JList [
          JDict [("role", JStr "user");
                 ("content", JStr ("Query: Where is the sofa?" +:+ newline +:+
                                   "Context: Area 5" +:+ newline +:+
                                   Conversational.instruction))];
          JDict [("role", JStr "assistant"); ("content", JStr "area_5")]])]).
Proof. vm_compute. reflexivity. Qed.

(** C5. For every record the standard transformer returns
    [{"text": "Query: ...\nContext: ...\nAnswer: ..."}] filled with the
    texts of the three fields, each empty when its key is absent, and
    raises nothing. *)
Theorem standard_transform_example (R : Runtime) (d : list (string * json)) :
  Standard.transform_example R (JDict d)
  = Ok (JDict [("text", JStr (text_template (field_text R d "query")
                                            (field_text R d "context")
                                            (field_text R d "response")))])
  /\ (forall key, has_key d key = false -> field_text R d key = "")
  /\ (forall key s, dict_get d key (JStr "") = JStr s -> field_text R d key = s).
Proof.
  split; [|split].
  - unfold Standard.transform_example, text_template. by rewrite !field_text_get.
  - intros key. apply field_text_absent.
  - intros key s Hget. by rewrite <- field_text_get, Hget.
Qed.

Lemma standard_sofa :
  Standard.transform_example Sample.runtime Sample.sofa
  = Ok (JDict [("text", JStr ("Query: Where is the sofa?" +:+ newline +:+
                              "Context: Area 5" +:+ newline +:+ "Answer: area_5"))]).
Proof. vm_compute. reflexivity. Qed.

Lemma standard_missing_keys :
  Standard.transform_example Sample.runtime (JDict [])
  = Ok (JDict [("text", JStr ("Query: " +:+ newline +:+ "Context: " +:+ newline +:+
                              "Answer: "))]).
Proof. vm_compute. reflexivity. Qed.

(** C6, as stated, fails on three inputs.  A line holding the JSON number
    [5] is not blank and parses, yet neither transformer completes: the
    run ends at that line, with one output line for three valid records.
    When the output path is the input path the file is truncated
    before its first line is read, and nothing is transformed.  And a
    line holding an object with an integer of 4301 digits is valid JSON,
    but [json.loads] raises [ValueError] on it, which is not caught: the
    run ends at that line, with one output line. *)
Lemma transformers_do_not_complete_on_number :
  (Sample.fs_number !! "in" = Some ["{}" +:+ newline; "5" +:+ newline; "{}" +:+ newline]
   /\ valid_records Sample.runtime ["{}" +:+ newline; "5" +:+ newline; "{}" +:+ newline]
      = [JDict []; JInt 5; JDict []])
  /\ ((Conversational.transform_file Sample.runtime Sample.fs_number "in" "out").2
      = Raise AttributeError
      /\ length <$> (Conversational.transform_file Sample.runtime Sample.fs_number "in" "out").1
                    !! "out" = Some 1%nat)
  /\ ((Standard.transform_file Sample.runtime Sample.fs_number "in" "out").2
      = Raise AttributeError
      /\ length <$> (Standard.transform_file Sample.runtime Sample.fs_number "in" "out").1
                    !! "out" = Some 1%nat)
  /\ (valid_records Sample.runtime Sample.mixed_lines = [JDict []; JDict [("response", JNull)]]
      /\ Conversational.transform_file Sample.runtime Sample.fs_mixed "in" "in"
         = (<["in" := []]> Sample.fs_mixed, Ok tt)
      /\ Standard.transform_file Sample.runtime Sample.fs_mixed "in" "in"
         = (<["in" := []]> Sample.fs_mixed, Ok tt))
  /\ (Sample.json_loads (Sample.strip (Sample.long_query +:+ newline)) = Raise ValueError
      /\ (Conversational.transform_file Sample.runtime Sample.fs_long "in" "out").2
         = Raise ValueError
      /\ length <$> (Conversational.transform_file Sample.runtime Sample.fs_long "in" "out").1
                    !! "out" = Some 1%nat
      /\ (Standard.transform_file Sample.runtime Sample.fs_long "in" "out").2
         = Raise ValueError
      /\ length <$> (Standard.transform_file Sample.runtime Sample.fs_long "in" "out").1
                    !! "out" = Some 1%nat).
Proof. vm_compute. done. Qed.

(** C6, amended. When [json.loads] raises nothing but
    [json.JSONDecodeError] on the lines of the input, every line that is
    not blank and parses holds a JSON object, and the output is another
    file than the input, each transformer completes, skips the blank
    lines and the lines that are not valid JSON, and writes as line [i]
    the transformation of the [i]-th valid record, in input order; the
    output has as many lines as there are valid records, at most the
    number of non-blank lines. *)
Theorem transformers_skip_and_keep_order (R : Runtime) (fs : files)
    (inp out : string) (f : list string) :
  fs !! inp = Some f ->
  inp <> out ->
  only_decode_errors R f ->
  Forall (fun v => is_dict v = true) (valid_records R f) ->
  (exists outs,
     Forall2 (fun v o => Conversational.transform_example R v = Ok o)
             (valid_records R f) outs
     /\ Conversational.transform_file R fs inp out = (<[out := jsonl R outs]> fs, Ok tt))
  /\ (exists outs,
        Forall2 (fun v o => Standard.transform_example R v = Ok o)
                (valid_records R f) outs
        /\ Standard.transform_file R fs inp out = (<[out := jsonl R outs]> fs, Ok tt))
  /\ (length (valid_records R f)
      <= length (List.filter nonempty (map (strip R) f)))%nat.
Proof.
  intros Hf Hne Hdec Hdicts. split; [|split].
  - destruct (conversational_dicts R _ Hdicts) as [outs Houts].
    exists outs. split; [done|]. unfold Conversational.transform_file.
    rewrite (transform_file_with_run R _ fs inp out f Hf Hne).
    by rewrite (transform_lines_ok R _ f [] outs Hdec Houts).
  - destruct (standard_dicts R _ Hdicts) as [outs Houts].
    exists outs. split; [done|]. unfold Standard.transform_file.
    rewrite (transform_file_with_run R _ fs inp out f Hf Hne).
    by rewrite (transform_lines_ok R _ f [] outs Hdec Houts).
  - apply valid_records_length.
Qed.

Lemma transformers_skip_and_keep_order_witness :
  Sample.fs_mixed !! "in" = Some Sample.mixed_lines
  /\ "in" <> "out"
  /\ only_decode_errors Sample.runtime Sample.mixed_lines
  /\ Forall (fun v => is_dict v = true) (valid_records Sample.runtime Sample.mixed_lines)
  /\ valid_records Sample.runtime Sample.mixed_lines = [JDict []; JDict [("response", JNull)]]
  /\ (exists outs,
        Forall2 (fun v o => Conversational.transform_example Sample.runtime v = Ok o)
                (valid_records Sample.runtime Sample.mixed_lines) outs
        /\ Conversational.transform_file Sample.runtime Sample.fs_mixed "in" "out"
           = (<["out" := jsonl Sample.runtime outs]> Sample.fs_mixed, Ok tt))
  /\ (exists outs,
        Forall2 (fun v o => Standard.transform_example Sample.runtime v = Ok o)
                (valid_records Sample.runtime Sample.mixed_lines) outs
        /\ Standard.transform_file Sample.runtime Sample.fs_mixed "in" "out"
           = (<["out" := jsonl Sample.runtime outs]> Sample.fs_mixed, Ok tt))
  /\ (length (valid_records Sample.runtime Sample.mixed_lines)
      <= length (List.filter nonempty (map Sample.strip Sample.mixed_lines)))%nat.
Proof.
  assert (Hf : Sample.fs_mixed !! "in" = Some Sample.mixed_lines) by evaluate.
  assert (Hne : "in" <> "out") by discriminate.
  assert (Hv : valid_records Sample.runtime Sample.mixed_lines
               = [JDict []; JDict [("response", JNull)]]) by evaluate.
  assert (Hd : Forall (fun v => is_dict v = true)
                 (valid_records Sample.runtime Sample.mixed_lines)).
  { rewrite Hv. repeat constructor. }
  assert (Hdec : only_decode_errors Sample.runtime Sample.mixed_lines)
    by (unfold Sample.mixed_lines; decode_errors).
  split; [exact Hf|]. split; [exact Hne|]. split; [exact Hdec|].
  split; [exact Hd|]. split; [exact Hv|].
  exact (transformers_skip_and_keep_order Sample.runtime Sample.fs_mixed "in" "out"
           Sample.mixed_lines Hf Hne Hdec Hd).
Defined.

(** The first line of a file at which the loop of a transformer stops,
    when some line holds a JSON value other than an object: that line or
    an earlier one, on which [json.loads] raises an exception that is
    not caught. *)
Lemma first_stop (R : Runtime) (f : list string) (line : string) (v : json) :
  line ∈ f ->
  nonempty (strip R line) = true ->
  json_loads R (strip R line) = Ok v ->
  is_dict v = false ->
  exists pre first post e,
    f = pre ++ first :: post
    /\ only_decode_errors R pre
    /\ Forall (fun v => is_dict v = true) (valid_records R pre)
    /\ nonempty (strip R first) = true
    /\ ((exists w, json_loads R (strip R first) = Ok w /\ is_dict w = false)
          /\ e = AttributeError
        \/ json_loads R (strip R first) = Raise e /\ e <> JSONDecodeError).
Proof.
  intros Hin Hnb Hv Hnd. induction Hin as [line f|line l f Hin IH].
  - exists [], line, f, AttributeError. split; [done|]. split; [constructor|].
    split; [constructor|]. split; [done|]. left. split; [by exists v|done].
  - destruct (IH Hnb Hv) as (pre & first & post & e & -> & Hdec & Hpre & Hnb' & Hstop).
    destruct (nonempty (strip R l)) eqn:Hl.
    + destruct (json_loads R (strip R l)) as [u|e'] eqn:Hu.
      * destruct (is_dict u) eqn:Hd.
        -- exists (l :: pre), first, post, e. split; [done|]. split.
           { apply only_decode_errors_cons. split; [|done]. intros _ e0 He0. congruence. }
           split; [|done]. rewrite valid_records_cons, Hl, Hu. by constructor.
        -- exists [], l, (pre ++ first :: post), AttributeError. split; [done|].
           split; [constructor|]. split; [constructor|]. split; [done|].
           left. split; [by exists u|done].
      * destruct (decide (e' = JSONDecodeError)) as [->|He'].
        -- exists (l :: pre), first, post, e. split; [done|]. split.
           { apply only_decode_errors_cons. split; [|done]. intros _ e0 He0. congruence. }
           split; [|done]. by rewrite valid_records_cons, Hl, Hu.
        -- exists [], l, (pre ++ first :: post), e'. split; [done|].
           split; [constructor|]. split; [constructor|]. split; [done|]. by right.
    + exists (l :: pre), first, post, e. split; [done|]. split.
      { apply only_decode_errors_cons. split; [|done]. intros Hl'. congruence. }
      split; [|done]. by rewrite valid_records_cons, Hl.
Qed.

(** C10. A non-blank line that is valid JSON but not a JSON object is not
    skipped: [transform_example] is applied to its value and raises
    [AttributeError] from the field lookup, in both transformers.  A file
    with such a line makes the run end with an exception that is not
    caught, the output holding the lines written for the records before
    the line at which it ends: this is the first line that holds a value
    that is not an object, and the exception [AttributeError], unless
    [json.loads] raises another exception than [json.JSONDecodeError] on
    an earlier line, where the run then ends with that exception. *)
Theorem transformers_abort_on_non_object (R : Runtime) (fs : files)
    (inp out : string) (f : list string) (line : string) (v : json) :
  fs !! inp = Some f ->
  inp <> out ->
  line ∈ f ->
  nonempty (strip R line) = true ->
  json_loads R (strip R line) = Ok v ->
  is_dict v = false ->
  (Conversational.transform_example R v = Raise AttributeError
   /\ Standard.transform_example R v = Raise AttributeError)
  /\ exists pre first post e,
       f = pre ++ first :: post
       /\ only_decode_errors R pre
       /\ Forall (fun v => is_dict v = true) (valid_records R pre)
       /\ nonempty (strip R first) = true
       /\ ((exists w, json_loads R (strip R first) = Ok w /\ is_dict w = false)
             /\ e = AttributeError
           \/ json_loads R (strip R first) = Raise e /\ e <> JSONDecodeError)
       /\ (only_decode_errors R f ->
           (exists w, json_loads R (strip R first) = Ok w /\ is_dict w = false)
           /\ e = AttributeError)
       /\ (exists outs,
             Forall2 (fun v o => Conversational.transform_example R v = Ok o)
                     (valid_records R pre) outs
             /\ Conversational.transform_file R fs inp out
                = (<[out := jsonl R outs]> fs, Raise e))
       /\ (exists outs,
             Forall2 (fun v o => Standard.transform_example R v = Ok o)
                     (valid_records R pre) outs
             /\ Standard.transform_file R fs inp out
                = (<[out := jsonl R outs]> fs, Raise e)).
Proof.
  intros Hf Hne Hin Hnb Hv Hnd.
  split; [by destruct v|].
  destruct (first_stop R f line v Hin Hnb Hv Hnd)
    as (pre & first & post & e & -> & Hdec & Hdicts & Hnb' & Hstop).
  exists pre, first, post, e. do 5 (split; [done|]). split; [|split].
  - intros Hall. destruct Hstop as [?|[Hbad He]]; [done|].
    destruct He. apply (only_decode_errors_elem R _ first e Hall); [|done..].
    apply elem_of_app. right. by left.
  - destruct (conversational_dicts R _ Hdicts) as [outs Houts].
    exists outs. split; [done|]. unfold Conversational.transform_file.
    rewrite (transform_file_with_run R _ fs inp out _ Hf Hne).
    destruct Hstop as [[(w & Hw & Hnd') ->]|[Hbad He]].
    + assert (Hr : Conversational.transform_example R w = Raise AttributeError)
        by (by destruct w).
      by rewrite (transform_lines_abort R _ pre post [] first outs w _ Hdec Houts Hnb' Hw Hr).
    + by rewrite (transform_lines_uncaught R _ pre post [] first outs e Hdec Houts Hnb' Hbad He).
  - destruct (standard_dicts R _ Hdicts) as [outs Houts].
    exists outs. split; [done|]. unfold Standard.transform_file.
    rewrite (transform_file_with_run R _ fs inp out _ Hf Hne).
    destruct Hstop as [[(w & Hw & Hnd') ->]|[Hbad He]].
    + assert (Hr : Standard.transform_example R w = Raise AttributeError)
        by (by destruct w).
      by rewrite (transform_lines_abort R _ pre post [] first outs w _ Hdec Houts Hnb' Hw Hr).
    + by rewrite (transform_lines_uncaught R _ pre post [] first outs e Hdec Houts Hnb' Hbad He).
Qed.

Lemma transformers_abort_on_non_object_witness :
  Sample.fs_number !! "in" = Some ["{}" +:+ newline; "5" +:+ newline; "{}" +:+ newline]
  /\ "in" <> "out"
  /\ ("5" +:+ newline) ∈ ["{}" +:+ newline; "5" +:+ newline; "{}" +:+ newline]
  /\ nonempty (Sample.strip ("5" +:+ newline)) = true
  /\ Sample.json_loads (Sample.strip ("5" +:+ newline)) = Ok (JInt 5)
  /\ is_dict (JInt 5) = false
  /\ only_decode_errors Sample.runtime ["{}" +:+ newline; "5" +:+ newline; "{}" +:+ newline]
  /\ (Conversational.transform_example Sample.runtime (JInt 5) = Raise AttributeError
      /\ Standard.transform_example Sample.runtime (JInt 5) = Raise AttributeError)
  /\ (Conversational.transform_file Sample.runtime Sample.fs_number "in" "out").2
     = Raise AttributeError
  /\ (Standard.transform_file Sample.runtime Sample.fs_number "in" "out").2
     = Raise AttributeError.
Proof.
  assert (Hf : Sample.fs_number !! "in"
               = Some ["{}" +:+ newline; "5" +:+ newline; "{}" +:+ newline])
    by evaluate.
  assert (Hne : "in" <> "out") by discriminate.
  assert (Hin : ("5" +:+ newline) ∈ ["{}" +:+ newline; "5" +:+ newline; "{}" +:+ newline])
    by (apply list_elem_of_further, list_elem_of_here).
  assert (Hnb : nonempty (Sample.strip ("5" +:+ newline)) = true) by evaluate.
  assert (Hv : Sample.json_loads (Sample.strip ("5" +:+ newline)) = Ok (JInt 5))
    by evaluate.
  assert (Hnd : is_dict (JInt 5) = false) by reflexivity.
  assert (Hdec : only_decode_errors Sample.runtime
                   ["{}" +:+ newline; "5" +:+ newline; "{}" +:+ newline])
    by decode_errors.
  split; [exact Hf|]. split; [exact Hne|]. split; [exact Hin|]. split; [exact Hnb|].
  split; [exact Hv|]. split; [exact Hnd|]. split; [exact Hdec|].
  destruct (transformers_abort_on_non_object Sample.runtime Sample.fs_number "in" "out"
              _ _ _ Hf Hne Hin Hnb Hv Hnd)
    as (Hraise & pre & first & post & e & _ & _ & _ & _ & _ & He
        & (outs1 & _ & Hconv) & (outs2 & _ & Hstd)).
  split; [exact Hraise|]. rewrite Hconv, Hstd.
  destruct (He Hdec) as [_ ->]. split; reflexivity.
Defined.

(** * Further properties of the scripts *)

(** ** The splitter *)

Section SplitterMore.
Context (R : Runtime).

(** The splitter and the transformers read the same records from a file
    the splitter accepts. *)
Lemma loads_all_valid_records (f : list string) (data : list json) :
  loads_all R (stripped_lines R f) = Ok data ->
  data = valid_records R f
  /\ length data = length (List.filter nonempty (map (strip R) f)).
Proof.
  revert data. induction f as [|line f IH]; intros data.
  - intros [= <-]. done.
  - rewrite valid_records_cons. unfold stripped_lines in *. simpl.
    destruct (nonempty (strip R line)) eqn:Hne; simpl; [|apply IH].
    destruct (json_loads R (strip R line)) as [v|]; [|done]. simpl.
    destruct (loads_all R (map (strip R)
                (List.filter (fun l => nonempty (strip R l)) f))) as [rest|e] eqn:Hrest;
      [|done].
    simpl. intros [= <-]. destruct (IH rest eq_refl) as [-> Hlen].
    split; [done|]. simpl. by rewrite Hlen.
Qed.

Lemma compute_n_test_errors (n : nat) (r : spec_float) (e : py_error) :
  compute_n_test n r = Raise e -> e = ValueError \/ e = OverflowError.
Proof.
  unfold compute_n_test.
  destruct (float_of_int (Z.of_nat n)) as [x|e'] eqn:Hx; simpl.
  - destruct (SFmul prec emax x r); simpl; intros [= <-]; auto.
  - intros [= <-]. unfold float_of_int in Hx.
    destruct (binary_normalize prec emax (Z.of_nat n) 0 false); simplify_eq; auto.
Qed.
End SplitterMore.

(** X1. The read, the parse, the shuffle and the computation of [n_test]
    come before the first write, so an exception of one of them leaves
    every file as it was.  A missing input raises [FileNotFoundError]
    and an exception of [json.loads] on a line is raised as it is, both
    before the generator is reseeded; an exception of [int], which is
    [ValueError] or [OverflowError], is raised after the shuffle. *)
Theorem split_failure_is_atomic (R : Runtime) (fs : files) (g : rng R)
    (inp tr te : string) (ratio : spec_float) (seed : Z) :
  (fs !! inp = None ->
   split_jsonl R fs g inp tr te ratio seed = (fs, g, Raise FileNotFoundError))
  /\ (forall f e,
        fs !! inp = Some f ->
        loads_all R (stripped_lines R f) = Raise e ->
        split_jsonl R fs g inp tr te ratio seed = (fs, g, Raise e)
        /\ exists line,
             line ∈ f /\ nonempty (strip R line) = true
             /\ json_loads R (strip R line) = Raise e)
  /\ (forall f data e,
        fs !! inp = Some f ->
        loads_all R (stripped_lines R f) = Ok data ->
        compute_n_test (length data) ratio = Raise e ->
        split_jsonl R fs g inp tr te ratio seed
        = (fs, (shuffle R (seed_state R seed) data).1, Raise e)
        /\ (e = ValueError \/ e = OverflowError)).
Proof.
  unfold split_jsonl, read_lines. split; [|split].
  - by intros ->.
  - intros f e -> Hdata. rewrite Hdata. split; [done|].
    apply loads_all_Raise in Hdata as (l & Hl & Hbad).
    apply elem_of_stripped_lines in Hl as (line & Hin & Hne & ->). by exists line.
  - intros f data e -> -> Hk.
    destruct (shuffle_Ok R (seed_state R seed) data) as (sh & Hy & Hperm).
    destruct (shuffle R (seed_state R seed) data) as [g' r].
    simpl in Hy. subst r. rewrite (Permutation_length Hperm), Hk.
    split; [done|]. by eapply compute_n_test_errors.
Qed.

Lemma split_failure_is_atomic_witness :
  (Sample.fs_bad !! "missing" = None
   /\ split_jsonl Sample.runtime Sample.fs_bad 3 "missing" "train" "test" Sample.ratio_0_2 42
      = (Sample.fs_bad, 3, Raise FileNotFoundError))
  /\ (Sample.fs_long_bad !! "in"
      = Some [Sample.long_digits +:+ newline; "{oops" +:+ newline]
      /\ loads_all Sample.runtime
           (stripped_lines Sample.runtime [Sample.long_digits +:+ newline; "{oops" +:+ newline])
         = Raise ValueError
      /\ split_jsonl Sample.runtime Sample.fs_long_bad 3 "in" "train" "test"
           Sample.ratio_0_2 42
         = (Sample.fs_long_bad, 3, Raise ValueError))
  /\ (Sample.fs_six !! "in" = Some Sample.six_lines
      /\ loads_all Sample.runtime (stripped_lines Sample.runtime Sample.six_lines)
         = Ok [JInt 1; JInt 2; JInt 3; JInt 4; JInt 5; JInt 6]
      /\ compute_n_test (length [JInt 1; JInt 2; JInt 3; JInt 4; JInt 5; JInt 6]) S754_nan
         = Raise ValueError
      /\ (split_jsonl Sample.runtime Sample.fs_six 3 "in" "train" "test" S754_nan 42).1.1
         = Sample.fs_six).
Proof.
  assert (Hnone : Sample.fs_bad !! "missing" = None) by evaluate.
  assert (Hf : Sample.fs_long_bad !! "in"
               = Some [Sample.long_digits +:+ newline; "{oops" +:+ newline]) by evaluate.
  assert (Hbad : loads_all Sample.runtime
                   (stripped_lines Sample.runtime
                      [Sample.long_digits +:+ newline; "{oops" +:+ newline])
                 = Raise ValueError) by evaluate.
  assert (Hsix : Sample.fs_six !! "in" = Some Sample.six_lines) by evaluate.
  assert (Hdata : loads_all Sample.runtime (stripped_lines Sample.runtime Sample.six_lines)
                  = Ok [JInt 1; JInt 2; JInt 3; JInt 4; JInt 5; JInt 6]) by evaluate.
  assert (Hk : compute_n_test (length [JInt 1; JInt 2; JInt 3; JInt 4; JInt 5; JInt 6])
                 S754_nan = Raise ValueError) by evaluate.
  split; [|split].
  - split; [exact Hnone|].
    exact (proj1 (split_failure_is_atomic Sample.runtime Sample.fs_bad 3
                    "missing" "train" "test" Sample.ratio_0_2 42) Hnone).
  - split; [exact Hf|]. split; [exact Hbad|].
    exact (proj1 (proj1 (proj2 (split_failure_is_atomic Sample.runtime Sample.fs_long_bad 3
                                  "in" "train" "test" Sample.ratio_0_2 42))
                    _ _ Hf Hbad)).
  - split; [exact Hsix|]. split; [exact Hdata|]. split; [exact Hk|].
    by rewrite (proj1 (proj2 (proj2 (split_failure_is_atomic Sample.runtime Sample.fs_six 3
                                       "in" "train" "test" S754_nan 42))
                         _ _ _ Hsix Hdata Hk)).
Defined.

(** X2. For every ratio on which the splitter succeeds, negative or above
    one included, the test records followed by the train records are the
    shuffled list, and the number of test records is [n_test] clamped as
    a slice bound is: counted from the end when negative, and kept
    between [0] and the number of records. *)
Theorem split_sizes_any_ratio (R : Runtime) (fs fs' : files) (g g' : rng R)
    (inp tr te : string) (ratio : spec_float) (seed : Z) (train test : list json) :
  split_jsonl R fs g inp tr te ratio seed = (fs', g', Ok (train, test)) ->
  exists (f : list string) (shuffled : list json) (n_test : Z),
    fs !! inp = Some f
    /\ shuffle R (seed_state R seed) (valid_records R f) = (g', Ok shuffled)
    /\ compute_n_test (length shuffled) ratio = Ok n_test
    /\ test ++ train = shuffled
    /\ Z.of_nat (length test)
       = if n_test <? 0 then Z.max 0 (Z.of_nat (length shuffled) + n_test)
         else Z.min n_test (Z.of_nat (length shuffled)).
Proof.
  intros Hrun.
  destruct (split_jsonl_Ok_inv R _ _ _ _ _ _ _ _ _ _ _ Hrun)
    as (f & data & shuffled & k & Hf & Hdata & Hshuf & Hshp & Hk & -> & -> & _).
  destruct (loads_all_valid_records R f data Hdata) as [-> _].
  exists f, shuffled, k. split; [done|]. split; [done|].
  rewrite (Permutation_length Hshp). split; [done|]. split; [apply slice_app|].
  unfold slice_to, adjust_index. rewrite length_take.
  rewrite <- (Permutation_length Hshp).
  destruct (Z.ltb_spec k 0); lia.
Qed.

Lemma split_sizes_any_ratio_witness :
  (split_jsonl Sample.runtime Sample.fs_six 0 "in" "train" "test"
     Cases.ratio_minus_0_2 42).2
  = Ok ([JInt 4], [JInt 1; JInt 3; JInt 6; JInt 2; JInt 5])
  /\ exists (f : list string) (shuffled : list json) (n_test : Z),
       Sample.fs_six !! "in" = Some f
       /\ shuffle Sample.runtime (seed_state Sample.runtime 42)
            (valid_records Sample.runtime f)
          = ((split_jsonl Sample.runtime Sample.fs_six 0 "in" "train" "test"
                Cases.ratio_minus_0_2 42).1.2, Ok shuffled)
       /\ compute_n_test (length shuffled) Cases.ratio_minus_0_2 = Ok n_test
       /\ [JInt 1; JInt 3; JInt 6; JInt 2; JInt 5] ++ [JInt 4] = shuffled
       /\ Z.of_nat (length [JInt 1; JInt 3; JInt 6; JInt 2; JInt 5])
          = if n_test <? 0 then Z.max 0 (Z.of_nat (length shuffled) + n_test)
            else Z.min n_test (Z.of_nat (length shuffled)).
Proof.
  assert (Hout : (split_jsonl Sample.runtime Sample.fs_six 0 "in" "train" "test"
                    Cases.ratio_minus_0_2 42).2
                 = Ok ([JInt 4], [JInt 1; JInt 3; JInt 6; JInt 2; JInt 5]))
    by evaluate.
  split; [exact Hout|].
  refine (split_sizes_any_ratio Sample.runtime Sample.fs_six _ 0 _ "in" "train" "test"
            Cases.ratio_minus_0_2 42 _ _ _).
  rewrite (triple_eta (split_jsonl _ _ _ _ _ _ _ _)) at 1. by rewrite Hout.
Defined.

(** X3. A ratio that is not a number makes the splitter raise
    [ValueError], and an infinite one [OverflowError], or [ValueError]
    when there is no record; this happens after the parse and the
    shuffle, and no file is written.  The dataset has fewer than
    [2 ^ 53] records. *)
Theorem split_non_finite_ratio (R : Runtime) (fs : files) (g : rng R)
    (inp tr te : string) (seed : Z) (f : list string) (data : list json) :
  fs !! inp = Some f ->
  loads_all R (stripped_lines R f) = Ok data ->
  Z.of_nat (length data) < 2 ^ 53 ->
  let g' := (shuffle R (seed_state R seed) data).1 in
  split_jsonl R fs g inp tr te S754_nan seed = (fs, g', Raise ValueError)
  /\ forall s,
       split_jsonl R fs g inp tr te (S754_infinity s) seed
       = (fs, g', Raise (if decide (data = []) then ValueError else OverflowError)).
Proof.
  intros Hf Hdata Hn g'.
  destruct (shuffle_Ok R (seed_state R seed) data) as (sh & Hy & Hperm).
  assert (Hrun : forall ratio,
            split_jsonl R fs g inp tr te ratio seed
            = match compute_n_test (length data) ratio with
              | Raise e => (fs, g', Raise e)
              | Ok k => (<[te := write_jsonl R (slice_to k sh)]>
                           (<[tr := write_jsonl R (slice_from k sh)]> fs),
                         g', Ok (slice_from k sh, slice_to k sh))
              end).
  { intros ratio. unfold split_jsonl, read_lines. rewrite Hf, Hdata. subst g'.
    destruct (shuffle R (seed_state R seed) data) as [g'' r]. simpl in *. subst r.
    rewrite (Permutation_length Hperm).
    by destruct (compute_n_test (length data) ratio). }
  split; [|intros s]; rewrite Hrun.
  - destruct (decide (Z.of_nat (length data) = 0)) as [Hz|Hnz].
    + by rewrite (compute_n_test_Ok _ _ float_zero) by (by rewrite Hz).
    + destruct (float_of_int_exact (Z.of_nat (length data))) as (m & e & Hx & _); [lia|].
      by rewrite (compute_n_test_Ok _ _ _ Hx).
  - destruct (decide (data = [])) as [->|Hne]; [done|].
    destruct (float_of_int_exact (Z.of_nat (length data))) as (m & e & Hx & _).
    { destruct data; [done|]. cbn [length] in *. lia. }
    by rewrite (compute_n_test_Ok _ _ _ Hx).
Qed.

Lemma split_non_finite_ratio_witness :
  Sample.fs_six !! "in" = Some Sample.six_lines
  /\ loads_all Sample.runtime (stripped_lines Sample.runtime Sample.six_lines)
     = Ok [JInt 1; JInt 2; JInt 3; JInt 4; JInt 5; JInt 6]
  /\ Z.of_nat (length [JInt 1; JInt 2; JInt 3; JInt 4; JInt 5; JInt 6]) < 2 ^ 53
  /\ (split_jsonl Sample.runtime Sample.fs_six 0 "in" "train" "test" S754_nan 42).2
     = Raise ValueError
  /\ (split_jsonl Sample.runtime Sample.fs_six 0 "in" "train" "test"
        (S754_infinity false) 42).2 = Raise OverflowError.
Proof.
  assert (Hf : Sample.fs_six !! "in" = Some Sample.six_lines) by evaluate.
  assert (Hdata : loads_all Sample.runtime (stripped_lines Sample.runtime Sample.six_lines)
                  = Ok [JInt 1; JInt 2; JInt 3; JInt 4; JInt 5; JInt 6]) by evaluate.
  assert (Hn : Z.of_nat (length [JInt 1; JInt 2; JInt 3; JInt 4; JInt 5; JInt 6]) < 2 ^ 53)
    by evaluate.
  split; [exact Hf|]. split; [exact Hdata|]. split; [exact Hn|].
  destruct (split_non_finite_ratio Sample.runtime Sample.fs_six 0 "in" "train" "test" 42
              _ _ Hf Hdata Hn) as [Hnan Hinf].
  rewrite Hnan, (Hinf false). split; reflexivity.
Defined.

(** X4. The splitter does not look at the records: when the records of a
    second input are those of a first, in the same order, each passed
    through a function [h], the same seed and ratio send the records at
    the same positions to train and to test. *)
Theorem split_content_independent (R : Runtime) (h : json -> json)
    (fs1 fs2 fs1' : files) (g1 g2 g1' : rng R) (inp1 inp2 tr te : string)
    (ratio : spec_float) (seed : Z) (f1 f2 : list string)
    (data train test : list json) :
  fs1 !! inp1 = Some f1 ->
  fs2 !! inp2 = Some f2 ->
  loads_all R (stripped_lines R f1) = Ok data ->
  loads_all R (stripped_lines R f2) = Ok (h <$> data) ->
  split_jsonl R fs1 g1 inp1 tr te ratio seed = (fs1', g1', Ok (train, test)) ->
  split_jsonl R fs2 g2 inp2 tr te ratio seed
  = (<[te := write_jsonl R (h <$> test)]> (<[tr := write_jsonl R (h <$> train)]> fs2),
     g1', Ok (h <$> train, h <$> test)).
Proof.
  intros Hf1 Hf2 Hdata1 Hdata2 Hrun.
  destruct (split_jsonl_Ok_inv R _ _ _ _ _ _ _ _ _ _ _ Hrun)
    as (f & data' & shuffled & k & Hf & Hdata & Hshuf & Hshp & Hk & -> & -> & _).
  rewrite Hf1 in Hf. injection Hf as <-.
  rewrite Hdata1 in Hdata. injection Hdata as <-.
  rewrite (split_jsonl_run R fs2 g2 g1' inp2 tr te ratio seed f2 _ (h <$> shuffled) k
             Hf2 Hdata2 (shuffle_fmap R h _ _ _ _ Hshuf)).
  - by rewrite (proj1 (slice_fmap h k shuffled)), (proj2 (slice_fmap h k shuffled)).
  - by rewrite length_fmap.
Qed.

Lemma split_content_independent_witness :
  Sample.fs_six !! "in" = Some Sample.six_lines
  /\ Cases.fs_teen !! "in" = Some Cases.teen_lines
  /\ loads_all Sample.runtime (stripped_lines Sample.runtime Sample.six_lines)
     = Ok [JInt 1; JInt 2; JInt 3; JInt 4; JInt 5; JInt 6]
  /\ loads_all Sample.runtime (stripped_lines Sample.runtime Cases.teen_lines)
     = Ok (Cases.plus_ten <$> [JInt 1; JInt 2; JInt 3; JInt 4; JInt 5; JInt 6])
  /\ Sample.six_run
     = (Sample.six_run.1.1, Sample.six_run.1.2,
        Ok ([JInt 3; JInt 6; JInt 2; JInt 5; JInt 4], [JInt 1]))
  /\ (split_jsonl Sample.runtime Cases.fs_teen 9 "in" "train" "test" Sample.ratio_0_2 42).2
     = Ok ([JInt 13; JInt 16; JInt 12; JInt 15; JInt 14], [JInt 11]).
Proof.
  assert (Hf1 : Sample.fs_six !! "in" = Some Sample.six_lines) by evaluate.
  assert (Hf2 : Cases.fs_teen !! "in" = Some Cases.teen_lines) by evaluate.
  assert (Hd1 : loads_all Sample.runtime (stripped_lines Sample.runtime Sample.six_lines)
                = Ok [JInt 1; JInt 2; JInt 3; JInt 4; JInt 5; JInt 6]) by evaluate.
  assert (Hd2 : loads_all Sample.runtime (stripped_lines Sample.runtime Cases.teen_lines)
                = Ok (Cases.plus_ten <$> [JInt 1; JInt 2; JInt 3; JInt 4; JInt 5; JInt 6]))
    by evaluate.
  assert (Hrun : Sample.six_run
                 = (Sample.six_run.1.1, Sample.six_run.1.2,
                    Ok ([JInt 3; JInt 6; JInt 2; JInt 5; JInt 4], [JInt 1])))
    by evaluate.
  split; [exact Hf1|]. split; [exact Hf2|]. split; [exact Hd1|]. split; [exact Hd2|].
  split; [exact Hrun|].
  by rewrite (split_content_independent Sample.runtime Cases.plus_ten
                Sample.fs_six Cases.fs_teen _ 0 9 _ "in" "in" "train" "test"
                Sample.ratio_0_2 42 _ _ _ _ _ Hf1 Hf2 Hd1 Hd2 Hrun).
Defined.

(** X5. The two files the splitter writes can be read back: when
    [json.loads] returns each record of the input from the line
    [json.dumps] makes of it, the train file parses to the train records
    and the test file to the test records, so nothing is lost between
    the input and the two outputs. *)
Theorem split_outputs_read_back (R : Runtime) (fs fs' : files) (g g' : rng R)
    (inp tr te : string) (ratio : spec_float) (seed : Z) (f : list string)
    (train test : list json) :
  tr <> te ->
  fs !! inp = Some f ->
  (forall v, v ∈ valid_records R f ->
     nonempty (strip R (json_dumps R v +:+ newline)) = true
     /\ json_loads R (strip R (json_dumps R v +:+ newline)) = Ok v) ->
  split_jsonl R fs g inp tr te ratio seed = (fs', g', Ok (train, test)) ->
  exists train_lines test_lines,
    fs' !! tr = Some train_lines
    /\ fs' !! te = Some test_lines
    /\ loads_all R (stripped_lines R train_lines) = Ok train
    /\ loads_all R (stripped_lines R test_lines) = Ok test
    /\ valid_records R train_lines ++ valid_records R test_lines ≡ₚ valid_records R f.
Proof.
  intros Hne Hfs Hround Hrun.
  destruct (split_jsonl_Ok_inv R _ _ _ _ _ _ _ _ _ _ _ Hrun)
    as (f' & data & shuffled & k & Hf & Hdata & Hshuf & Hshp & Hk & -> & -> & ->).
  rewrite Hfs in Hf. injection Hf as <-.
  destruct (loads_all_valid_records R f data Hdata) as [-> _].
  assert (Hback : forall vs, (forall v, v ∈ vs -> v ∈ shuffled) ->
            loads_all R (stripped_lines R (write_jsonl R vs)) = Ok vs).
  { induction vs as [|v vs IH]; intros Hin; [done|].
    destruct (Hround v) as [Hnb Hv].
    { rewrite <- Hshp. apply Hin. by left. }
    unfold stripped_lines, write_jsonl in *. simpl. rewrite Hnb. simpl. rewrite Hv.
    simpl. rewrite IH; [done|]. intros w Hw. apply Hin. by right. }
  assert (Htr : loads_all R (stripped_lines R (write_jsonl R (slice_from k shuffled)))
                = Ok (slice_from k shuffled)).
  { apply Hback. intros v Hv. rewrite <- (slice_app k shuffled).
    apply elem_of_app. by right. }
  assert (Hte : loads_all R (stripped_lines R (write_jsonl R (slice_to k shuffled)))
                = Ok (slice_to k shuffled)).
  { apply Hback. intros v Hv. rewrite <- (slice_app k shuffled).
    apply elem_of_app. by left. }
  eexists _, _. rewrite lookup_insert_ne, !lookup_insert_eq by done.
  do 2 (split; [done|]). split; [done|]. split; [done|].
  destruct (loads_all_valid_records R _ _ Htr) as [<- _].
  destruct (loads_all_valid_records R _ _ Hte) as [<- _].
  by rewrite Permutation_app_comm, slice_app.
Qed.

Lemma split_outputs_read_back_witness :
  "train" <> "test"
  /\ Sample.fs_six !! "in" = Some Sample.six_lines
  /\ (forall v, v ∈ valid_records Sample.runtime Sample.six_lines ->
        nonempty (Sample.strip (Sample.json_dumps v +:+ newline)) = true
        /\ Sample.json_loads (Sample.strip (Sample.json_dumps v +:+ newline)) = Ok v)
  /\ Sample.six_run
     = (Sample.six_run.1.1, Sample.six_run.1.2,
        Ok ([JInt 3; JInt 6; JInt 2; JInt 5; JInt 4], [JInt 1]))
  /\ exists train_lines test_lines,
       Sample.six_run.1.1 !! "train" = Some train_lines
       /\ Sample.six_run.1.1 !! "test" = Some test_lines
       /\ loads_all Sample.runtime (stripped_lines Sample.runtime train_lines)
          = Ok [JInt 3; JInt 6; JInt 2; JInt 5; JInt 4]
       /\ loads_all Sample.runtime (stripped_lines Sample.runtime test_lines) = Ok [JInt 1]
       /\ valid_records Sample.runtime train_lines ++ valid_records Sample.runtime test_lines
          ≡ₚ valid_records Sample.runtime Sample.six_lines.
Proof.
  assert (Hne : "train" <> "test") by discriminate.
  assert (Hf : Sample.fs_six !! "in" = Some Sample.six_lines) by evaluate.
  assert (Hround : forall v, v ∈ valid_records Sample.runtime Sample.six_lines ->
            nonempty (Sample.strip (Sample.json_dumps v +:+ newline)) = true
            /\ Sample.json_loads (Sample.strip (Sample.json_dumps v +:+ newline)) = Ok v).
  { replace (valid_records Sample.runtime Sample.six_lines)
      with [JInt 1; JInt 2; JInt 3; JInt 4; JInt 5; JInt 6] by evaluate.
    intros v Hv. repeat (apply elem_of_cons in Hv as [->|Hv]; [by vm_compute|]).
    by apply elem_of_nil in Hv. }
  assert (Hrun : Sample.six_run
                 = (Sample.six_run.1.1, Sample.six_run.1.2,
                    Ok ([JInt 3; JInt 6; JInt 2; JInt 5; JInt 4], [JInt 1])))
    by evaluate.
  split; [exact Hne|]. split; [exact Hf|]. split; [exact Hround|]. split; [exact Hrun|].
  exact (split_outputs_read_back Sample.runtime _ _ _ _ _ _ _ _ _ _ _ _ Hne Hf Hround Hrun).
Defined.

Section ConsoleFacts.
Context (R : Runtime) (te : json -> outcome json).

(** The functions with console output write the files and end as the
    functions without. *)
Lemma split_jsonl_io_erase (fs : files) (g : rng R) (stdout : list string)
    (inp tr tst : string) (ratio : spec_float) (seed : Z) :
  let r := split_jsonl_io R fs g stdout inp tr tst ratio seed in
  (r.1.1.1, r.1.1.2, r.2) = split_jsonl R fs g inp tr tst ratio seed.
Proof.
  unfold split_jsonl_io, split_jsonl. cbv zeta.
  destruct (read_lines fs inp) as [f|e]; [|done].
  destruct (loads_all R (stripped_lines R f)) as [data|e]; [|done].
  destruct (shuffle R (seed_state R seed) data) as [g' [sh|e]]; [|done].
  by destruct (compute_n_test (length sh) ratio).
Qed.

Lemma transform_lines_io_erase (f fout stdout : list string) :
  let r := transform_lines_io R te f fout stdout in
  (r.1.1, r.2) = transform_lines R te f fout.
Proof.
  cbv zeta. revert fout stdout. induction f as [|line f IH]; intros fout stdout; [done|].
  simpl. destruct (nonempty (strip R line)); simpl; [|apply IH].
  destruct (json_loads R (strip R line)) as [v|e];
    [destruct (te v); [apply IH|done]|destruct e; first [apply IH|done]].
Qed.

Lemma transform_file_io_erase (fs : files) (stdout : list string) (inp out : string) :
  let r := transform_file_io R te fs stdout inp out in
  (r.1.1, r.2) = transform_file_with R te fs inp out.
Proof.
  unfold transform_file_io, transform_file_with. cbv zeta.
  destruct (read_lines fs inp) as [f|e]; [|done].
  pose proof (transform_lines_io_erase (default [] (<[out := []]> fs !! inp)) [] stdout)
    as Her. cbv zeta in Her.
  destruct (transform_lines_io R te _ [] stdout) as [[fout stdout'] r].
  simpl in Her. rewrite <- Her. by destruct r as [[]|e].
Qed.

(** A line that is not JSON is the only thing the loop reports. *)
Lemma transform_lines_io_account (f fout stdout : list string) :
  exists out err,
    transform_lines_io R te f fout stdout
    = (fout ++ out, stdout ++ err, (transform_lines R te f fout).2)
    /\ Forall (fun msg => exists line,
                 line ∈ f /\ nonempty (strip R line) = true
                 /\ json_loads R (strip R line) = Raise JSONDecodeError
                 /\ msg = "Error decoding JSON: " +:+ strip R line) err
    /\ (length out + length err <= length (List.filter nonempty (map (strip R) f)))%nat
    /\ ((transform_lines R te f fout).2 = Ok tt ->
        (length out + length err)%nat = length (List.filter nonempty (map (strip R) f))
        /\ length out = length (valid_records R f)).
Proof.
  revert fout stdout. induction f as [|line f IH]; intros fout stdout.
  - exists [], []. simpl. rewrite !app_nil_r. by repeat split.
  - rewrite valid_records_cons. simpl.
    destruct (nonempty (strip R line)) eqn:Hnb; simpl.
    2:{ destruct (IH fout stdout) as (out & err & -> & Herr & Hle & Hok).
        exists out, err. split; [done|]. split; [|done].
        eapply Forall_impl; [exact Herr|]. intros msg (l & Hl & H).
        exists l. split; [by right|done]. }
    destruct (json_loads R (strip R line)) as [v|e] eqn:Hv.
    + destruct (te v) as [t|e] eqn:Ht.
      * destruct (IH (fout ++ [json_dumps R t +:+ newline]) stdout)
          as (out & err & -> & Herr & Hle & Hok).
        exists ((json_dumps R t +:+ newline) :: out), err.
        rewrite <- app_assoc. split; [done|]. split.
        { eapply Forall_impl; [exact Herr|]. intros msg (l & Hl & H).
          exists l. split; [by right|done]. }
        simpl. split; [lia|]. intros Hr. destruct (Hok Hr). lia.
      * exists [], []. rewrite !app_nil_r. simpl. split; [done|].
        split; [done|]. split; [lia|done].
    + destruct (decide (e = JSONDecodeError)) as [->|He].
      * destruct (IH fout (stdout ++ ["Error decoding JSON: " +:+ strip R line]))
          as (out & err & -> & Herr & Hle & Hok).
        exists out, (("Error decoding JSON: " +:+ strip R line) :: err).
        rewrite <- app_assoc. split; [done|]. split.
        { constructor; [exists line; split; [by left|done]|].
          eapply Forall_impl; [exact Herr|]. intros msg (l & Hl & H).
          exists l. split; [by right|done]. }
        simpl. split; [lia|]. intros Hr. destruct (Hok Hr). lia.
      * exists [], []. rewrite !app_nil_r.
        destruct e; try done; (split; [done|]; split; [done|]; split; [simpl; lia|done]).
Qed.
End ConsoleFacts.

(** X6. The splitter prints its summary only when it succeeds, after the
    two files are written: three lines, where the total is the number of
    non-blank lines of the input and is the sum of the train and test
    counts.  When it raises it prints nothing. *)
Theorem split_summary (R : Runtime) (fs : files) (g : rng R) (stdout : list string)
    (inp tr te : string) (ratio : spec_float) (seed : Z) :
  let r := split_jsonl_io R fs g stdout inp tr te ratio seed in
  (r.1.1.1, r.1.1.2, r.2) = split_jsonl R fs g inp tr te ratio seed
  /\ match r.2 with
     | Raise _ => r.1.2 = stdout
     | Ok (train, test) =>
         exists f,
           fs !! inp = Some f
           /\ (length train + length test)%nat
              = length (List.filter nonempty (map (strip R) f))
           /\ r.1.2
              = stdout ++
                [ "Total examples: " +:+ int_str (Z.of_nat (length train + length test));
                  "Train examples: " +:+ int_str (Z.of_nat (length train));
                  "Test examples: " +:+ int_str (Z.of_nat (length test)) ]
     end.
Proof.
  split; [apply split_jsonl_io_erase|].
  unfold split_jsonl_io, read_lines.
  destruct (fs !! inp) as [f|] eqn:Hf; [|done].
  destruct (loads_all R (stripped_lines R f)) as [data|e] eqn:Hdata; [|done].
  destruct (loads_all_valid_records R f data Hdata) as [_ Hlen].
  destruct (shuffle_Ok R (seed_state R seed) data) as (sh & Hy & Hperm).
  destruct (shuffle R (seed_state R seed) data) as [g' r]. simpl in Hy. subst r.
  destruct (compute_n_test (length sh) ratio) as [k|e]; [|done].
  cbn [fst snd]. exists f. split; [done|].
  assert (Hsum : (length (slice_from k sh) + length (slice_to k sh))%nat = length sh).
  { by rewrite Nat.add_comm, <- length_app, slice_app. }
  rewrite Hsum. split; [|done]. by rewrite (Permutation_length Hperm).
Qed.

(** X7. A transformer accounts for every non-blank line of its input:
    when the run completes, the lines written and the messages printed
    for lines that are not JSON are together as many as the non-blank
    lines, each message quoting the trimmed line it is about, followed
    by the closing message; when the run is cut short there are fewer,
    and no closing message. *)
Theorem transform_file_accounts (R : Runtime) (te : json -> outcome json)
    (fs : files) (stdout : list string) (inp out : string) (f : list string) :
  fs !! inp = Some f ->
  inp <> out ->
  let r := transform_file_io R te fs stdout inp out in
  exists written err,
    r.1.1 = <[out := written]> fs
    /\ r.1.2 = stdout ++ err ++
               match r.2 with
               | Ok _ => ["Transformed data written to " +:+ out]
               | Raise _ => []
               end
    /\ Forall (fun msg => exists line,
                 line ∈ f /\ nonempty (strip R line) = true
                 /\ json_loads R (strip R line) = Raise JSONDecodeError
                 /\ msg = "Error decoding JSON: " +:+ strip R line) err
    /\ (length written + length err
        <= length (List.filter nonempty (map (strip R) f)))%nat
    /\ (r.2 = Ok tt ->
        (length written + length err)%nat
        = length (List.filter nonempty (map (strip R) f))).
Proof.
  intros Hf Hne. unfold transform_file_io, read_lines. rewrite Hf.
  rewrite lookup_insert_ne, Hf by done. cbn [default]. unfold id.
  destruct (transform_lines_io_account R te f [] stdout)
    as (written & err & -> & Herr & Hle & Hok).
  exists written, err. cbn [app]. rewrite insert_insert_eq.
  destruct (transform_lines R te f []).2 as [[]|e] eqn:Hr; cbn [fst snd].
  - rewrite <- app_assoc. do 4 (split; [done|]). intros _. by apply Hok.
  - rewrite app_nil_r. by do 4 (split; [done|]).
Qed.

Lemma transform_file_accounts_witness :
  Sample.fs_mixed !! "in" = Some Sample.mixed_lines
  /\ "in" <> "out"
  /\ (transform_file_io Sample.runtime (Standard.transform_example Sample.runtime)
        Sample.fs_mixed [] "in" "out").1.2
     = ["Error decoding JSON: {oops"; "Transformed data written to out"]
  /\ exists written err : list string,
       (transform_file_io Sample.runtime (Standard.transform_example Sample.runtime)
          Sample.fs_mixed [] "in" "out").1.1 = <["out" := written]> Sample.fs_mixed
       /\ (length written + length err)%nat = 3%nat.
Proof.
  assert (Hf : Sample.fs_mixed !! "in" = Some Sample.mixed_lines) by evaluate.
  assert (Hne : "in" <> "out") by discriminate.
  split; [exact Hf|]. split; [exact Hne|]. split; [evaluate|].
  destruct (transform_file_accounts Sample.runtime
              (Standard.transform_example Sample.runtime) Sample.fs_mixed [] "in" "out"
              _ Hf Hne) as (written & err & Hw & _ & _ & _ & Hok).
  exists written, err. split; [exact Hw|]. apply Hok. evaluate.
Defined.

(** X8. A file the splitter accepts is one on which a transformer skips
    nothing but blank lines: every non-blank line is a record, the
    records are the train and test records together, and the loop prints
    no message. *)
Theorem split_accepts_clean_files (R : Runtime) (te : json -> outcome json)
    (fs fs' : files) (g g' : rng R) (inp tr tst : string) (ratio : spec_float)
    (seed : Z) (f : list string) (train test : list json) :
  fs !! inp = Some f ->
  split_jsonl R fs g inp tr tst ratio seed = (fs', g', Ok (train, test)) ->
  train ++ test ≡ₚ valid_records R f
  /\ length (valid_records R f) = length (List.filter nonempty (map (strip R) f))
  /\ forall fout stdout, (transform_lines_io R te f fout stdout).1.2 = stdout.
Proof.
  intros Hfs Hrun.
  destruct (split_jsonl_Ok_inv R _ _ _ _ _ _ _ _ _ _ _ Hrun)
    as (f' & data & shuffled & k & Hf & Hdata & Hshuf & Hshp & Hk & -> & -> & _).
  rewrite Hfs in Hf. injection Hf as <-.
  destruct (loads_all_valid_records R f data Hdata) as [-> Hlen].
  split; [by rewrite Permutation_app_comm, slice_app|]. split; [done|].
  intros fout stdout.
  destruct (transform_lines_io_account R te f fout stdout) as (out & err & -> & Herr & _).
  cbn [fst snd]. destruct err as [|msg err]; [by rewrite app_nil_r|].
  apply Forall_cons in Herr as [(line & Hin & Hnb & Hbad & _) _].
  destruct (loads_all_bad R (stripped_lines R f) (strip R line) JSONDecodeError)
    as [e He]; [|done|].
  { apply elem_of_stripped_lines. by exists line. }
  by rewrite He in Hdata.
Qed.

Lemma split_accepts_clean_files_witness :
  Sample.fs_six !! "in" = Some Sample.six_lines
  /\ Sample.six_run
     = (Sample.six_run.1.1, Sample.six_run.1.2,
        Ok ([JInt 3; JInt 6; JInt 2; JInt 5; JInt 4], [JInt 1]))
  /\ [JInt 3; JInt 6; JInt 2; JInt 5; JInt 4] ++ [JInt 1]
     ≡ₚ valid_records Sample.runtime Sample.six_lines
  /\ length (valid_records Sample.runtime Sample.six_lines)
     = length (List.filter nonempty (map Sample.strip Sample.six_lines))
  /\ forall fout stdout,
       (transform_lines_io Sample.runtime (Standard.transform_example Sample.runtime)
          Sample.six_lines fout stdout).1.2 = stdout.
Proof.
  assert (Hf : Sample.fs_six !! "in" = Some Sample.six_lines) by evaluate.
  assert (Hrun : Sample.six_run
                 = (Sample.six_run.1.1, Sample.six_run.1.2,
                    Ok ([JInt 3; JInt 6; JInt 2; JInt 5; JInt 4], [JInt 1])))
    by evaluate.
  split; [exact Hf|]. split; [exact Hrun|].
  exact (split_accepts_clean_files Sample.runtime
           (Standard.transform_example Sample.runtime) _ _ _ _ _ _ _ _ _ _ _ _ Hf Hrun).
Defined.

(** ** The transformers *)

Section TransformMore.
Context (R : Runtime) (te : json -> outcome json).

Lemma transform_lines_extends (f fout : list string) :
  exists out, (transform_lines R te f fout).1 = fout ++ out.
Proof.
  destruct (transform_lines_io_account R te f fout []) as (out & err & Heq & _).
  pose proof (transform_lines_io_erase R te f fout []) as Her. cbv zeta in Her.
  rewrite Heq in Her. simpl in Her. exists out. by rewrite <- Her.
Qed.

Lemma transform_file_with_frame (fs : files) (inp out : string) :
  let r := transform_file_with R te fs inp out in
  (forall p, p <> out -> r.1 !! p = fs !! p)
  /\ (fs !! inp = None -> r = (fs, Raise FileNotFoundError)).
Proof.
  unfold transform_file_with, read_lines. cbv zeta.
  destruct (fs !! inp) as [f|] eqn:Hf.
  - destruct (transform_lines R te (default [] (<[out:=[]]> fs !! inp)) [])
      as [fout r] eqn:Hrun. cbn [fst snd]. split; [|done].
    intros p Hp. by rewrite !lookup_insert_ne.
  - cbn [fst snd]. by split.
Qed.
End TransformMore.

(** X9. A transformer changes no file but its output, whatever the
    outcome, and when the input is missing it raises
    [FileNotFoundError] and creates nothing. *)
Theorem transform_file_touches_only_output (R : Runtime) (fs : files) (inp out : string) :
  let conv := Conversational.transform_file R fs inp out in
  let std := Standard.transform_file R fs inp out in
  (forall p, p <> out -> conv.1 !! p = fs !! p /\ std.1 !! p = fs !! p)
  /\ (fs !! inp = None ->
      conv = (fs, Raise FileNotFoundError) /\ std = (fs, Raise FileNotFoundError)).
Proof.
  cbv zeta. unfold Conversational.transform_file, Standard.transform_file.
  destruct (transform_file_with_frame R (Conversational.transform_example R) fs inp out)
    as (Hc1 & Hc2).
  destruct (transform_file_with_frame R (Standard.transform_example R) fs inp out)
    as (Hs1 & Hs2).
  split.
  - intros p Hp. split; [by apply Hc1|by apply Hs1].
  - intros Hnone. split; [by apply Hc2|by apply Hs2].
Qed.

(** X10. The loop of a transformer is a stream: it only appends to what
    is written, and the lines of a file in two parts are handled as the
    first part, then, unless an exception ended the first part, the
    second part. *)
Theorem transform_lines_app (R : Runtime) (te : json -> outcome json)
    (f1 f2 fout : list string) :
  (exists out, (transform_lines R te (f1 ++ f2) fout).1 = fout ++ out)
  /\ transform_lines R te (f1 ++ f2) fout
     = match transform_lines R te f1 fout with
       | (written, Ok _) => transform_lines R te f2 written
       | (written, Raise e) => (written, Raise e)
       end.
Proof.
  split; [apply transform_lines_extends|].
  revert fout. induction f1 as [|line f1 IH]; intros fout; [done|].
  simpl. destruct (nonempty (strip R line)); simpl; [|apply IH].
  destruct (json_loads R (strip R line)) as [v|e];
    [destruct (te v); [apply IH|done]|destruct e; first [apply IH|done]].
Qed.

Lemma dict_get_keep_read_keys (d : list (string * json)) (key : string) (default : json) :
  key ∈ read_keys ->
  dict_get (keep_read_keys d) key default = dict_get d key default.
Proof.
  intros Hkey. unfold keep_read_keys.
  induction d as [|[k v] d IH]; [done|]. cbn [List.filter fst].
  destruct (existsb (String.eqb k) read_keys) eqn:Hk; cbn [dict_get]; [by rewrite IH|].
  destruct (String.eqb_spec k key) as [->|_]; [|done].
  exfalso. apply not_true_iff_false in Hk. apply Hk.
  apply existsb_exists. exists key. split; [by apply list_elem_of_In|].
  apply String.eqb_refl.
Qed.

(** X11. Only the keys [query], [context] and [response] of a record
    reach the output of a transformer: dropping every other key
    ([node_ids] for one) changes nothing, at any position in the
    record. *)
Theorem transform_ignores_other_keys (R : Runtime) (d : list (string * json)) :
  Conversational.transform_example R (JDict (keep_read_keys d))
  = Conversational.transform_example R (JDict d)
  /\ Standard.transform_example R (JDict (keep_read_keys d))
     = Standard.transform_example R (JDict d).
Proof.
  unfold Conversational.transform_example, Standard.transform_example.
  rewrite !dict_get_keep_read_keys; [done|..]; unfold read_keys;
    repeat (first [by left | right]).
Qed.

(** X12. The output of a transformer has none of the keys it reads, so a
    transformer run on transformed records raises nothing and fills its
    template with empty texts. *)
Theorem transform_twice_is_empty (R : Runtime) (d : list (string * json)) :
  exists conv std,
    Conversational.transform_example R (JDict d) = Ok conv
    /\ Standard.transform_example R (JDict d) = Ok std
    /\ Forall (fun out =>
         Conversational.transform_example R out
         = Ok (JDict [("messages", JList [
                 JDict [("role", JStr "user"); ("content", JStr (user_template "" ""))];
                 JDict [("role", JStr "assistant"); ("content", JStr "")]])])
         /\ Standard.transform_example R out
            = Ok (JDict [("text", JStr (text_template "" "" ""))]))
       [conv; std].
Proof. eexists _, _. split; [done|]. split; [done|]. by repeat constructor. Qed.

(** ** The default ratio *)

Section DefaultRatio.

(** With the default ratio the number of test records is a fifth of the
    number of records, rounded down. *)
Lemma compute_n_test_default (n : nat) :
  Z.of_nat n < 2 ^ 52 -> compute_n_test n default_test_ratio = Ok (Z.of_nat n / 5).
Proof.
  intros Hn.
  destruct n as [|[|[|[|[|n]]]]]; [reflexivity..|].
  set (N := Z.of_nat (S (S (S (S (S n)))))) in *.
  assert (HN : 5 <= N) by (subst N; lia).
  destruct (float_of_int_exact N) as (mx & ex & Hx & Hb & Hex & Hmx); [lia|].
  rewrite (compute_n_test_Ok _ _ _ Hx). unfold default_test_ratio. cbn [SFmul xorb].
  set (q := N / 5).
  assert (Hq : N = 5 * q + N mod 5) by (apply Z.div_mod; lia).
  assert (Hr : 0 <= N mod 5 < 5) by (apply Z.mod_pos_bound; lia).
  assert (Hq1 : 1 <= q) by lia.
  assert (Hpx : 0 < 2 ^ (- ex)) by (apply pow2_pos; lia).
  assert (Hsp : 2 ^ (- (ex + -55) - 3) = 4503599627370496 * 2 ^ (- ex)).
  { replace (- (ex + -55) - 3) with (52 + - ex) by lia.
    rewrite pow2_split by lia. reflexivity. }
  destruct (binary_round_aux_between false (mx * 7205759403792794) (ex + -55) 3
              (8 * q) (8 * q + 7)) as (m2 & e2 & -> & He2 & Hm2lo & Hm2hi);
    [lia|lia|lia|lia| |].
  { rewrite Hsp, Pos2Z.inj_mul, Hmx. set (P := 2 ^ (- ex)) in *.
    set (r := N mod 5) in *. split.
    - replace (8 * q * (4503599627370496 * P)) with ((q * 36028797018963968) * P) by ring.
      replace (N * P * 7205759403792794) with ((N * 7205759403792794) * P) by ring.
      apply Z.mul_le_mono_nonneg_r; lia.
    - replace ((8 * q + 7) * (4503599627370496 * P))
        with (((8 * q + 7) * 4503599627370496) * P) by ring.
      replace (N * P * 7205759403792794) with ((N * 7205759403792794) * P) by ring.
      apply Z.mul_le_mono_nonneg_r; lia. }
  cbn [int_of_float cond_Zopp]. f_equal.
  rewrite Z.shiftl_div_pow2 by lia.
  assert (HT : 0 < 2 ^ (- e2 - 3)) by (apply pow2_pos; lia).
  assert (Hsp2 : 2 ^ (- e2) = 8 * 2 ^ (- e2 - 3)).
  { replace (- e2) with (3 + (- e2 - 3)) at 1 by lia. rewrite pow2_split by lia.
    reflexivity. }
  rewrite Hsp2. set (T := 2 ^ (- e2 - 3)) in *.
  symmetry. apply (Z.div_unique_pos _ _ q (Zpos m2 - q * (8 * T))); lia.
Qed.
End DefaultRatio.

(** X13. With the default ratio [0.2] the test set is the first fifth of
    the shuffled records, rounded down, and the train set the other
    records: the float product [n_total * 0.2] never rounds across an
    integer.  The dataset has fewer than [2 ^ 52] records. *)
Theorem split_default_ratio (R : Runtime) (fs : files) (g : rng R) (inp tr te : string)
    (seed : Z) (f : list string) (data : list json) :
  fs !! inp = Some f ->
  loads_all R (stripped_lines R f) = Ok data ->
  Z.of_nat (length data) < 2 ^ 52 ->
  exists (g' : rng R) (shuffled : list json),
    shuffle R (seed_state R seed) data = (g', Ok shuffled)
    /\ let test := take (length data / 5) shuffled in
       let train := drop (length data / 5) shuffled in
       split_jsonl R fs g inp tr te default_test_ratio seed
       = (<[te := write_jsonl R test]> (<[tr := write_jsonl R train]> fs),
          g', Ok (train, test))
       /\ length test = (length data / 5)%nat
       /\ length train = (length data - length data / 5)%nat.
Proof.
  intros Hf Hdata Hn.
  destruct (shuffle_Ok R (seed_state R seed) data) as (shuffled & Hy & Hperm).
  destruct (shuffle R (seed_state R seed) data) as [g' r] eqn:Hsh.
  simpl in Hy. subst r. exists g', shuffled. split; [done|]. cbv zeta.
  rewrite (split_jsonl_run R fs g g' inp tr te _ seed f data shuffled _ Hf Hdata Hsh
             (compute_n_test_default _ Hn)).
  destruct (slice_nonneg (Z.of_nat (length data) / 5) shuffled) as [-> ->].
  { apply Z.div_pos; lia. }
  replace (Z.to_nat (Z.of_nat (length data) / 5)) with (length data / 5)%nat
    by (rewrite <- (Nat2Z.id (length data / 5)), Nat2Z.inj_div; done).
  split; [done|]. rewrite length_take, length_drop, (Permutation_length Hperm).
  pose proof (Nat.Div0.div_le_upper_bound (length data) 5 (length data)). lia.
Qed.

Lemma split_default_ratio_witness :
  Sample.fs_six !! "in" = Some Sample.six_lines
  /\ loads_all Sample.runtime (stripped_lines Sample.runtime Sample.six_lines)
     = Ok [JInt 1; JInt 2; JInt 3; JInt 4; JInt 5; JInt 6]
  /\ Z.of_nat (length [JInt 1; JInt 2; JInt 3; JInt 4; JInt 5; JInt 6]) < 2 ^ 52
  /\ (split_jsonl Sample.runtime Sample.fs_six 0 "in" "train" "test"
        default_test_ratio default_seed).2
     = Ok ([JInt 3; JInt 6; JInt 2; JInt 5; JInt 4], [JInt 1]).
Proof.
  assert (Hf : Sample.fs_six !! "in" = Some Sample.six_lines) by evaluate.
  assert (Hdata : loads_all Sample.runtime (stripped_lines Sample.runtime Sample.six_lines)
                  = Ok [JInt 1; JInt 2; JInt 3; JInt 4; JInt 5; JInt 6]) by evaluate.
  assert (Hn : Z.of_nat (length [JInt 1; JInt 2; JInt 3; JInt 4; JInt 5; JInt 6]) < 2 ^ 52)
    by evaluate.
  split; [exact Hf|]. split; [exact Hdata|]. split; [exact Hn|].
  destruct (split_default_ratio Sample.runtime Sample.fs_six 0 "in" "train" "test"
              default_seed _ _ Hf Hdata Hn) as (g' & shuffled & Hsh & Hrun & _).
  rewrite Hrun.
  assert (Hs : shuffled = [JInt 1; JInt 3; JInt 6; JInt 2; JInt 5; JInt 4])
    by (vm_compute in Hsh; by injection Hsh).
  by rewrite Hs.
Defined.

(** X14. Blank lines and the white space around a line do not matter to
    any of the three scripts: on a file and on its non-blank lines,
    trimmed, the splitter parses the same lines and a transformer reads
    the same records and writes the same output.  Trimming a trimmed
    line changes nothing, as [str.strip] has it. *)
Theorem whitespace_is_ignored (R : Runtime) (te : json -> outcome json)
    (f fout : list string) :
  (forall line, line ∈ f -> strip R (strip R line) = strip R line) ->
  stripped_lines R (stripped_lines R f) = stripped_lines R f
  /\ valid_records R (stripped_lines R f) = valid_records R f
  /\ transform_lines R te (stripped_lines R f) fout = transform_lines R te f fout.
Proof.
  revert fout. induction f as [|line f IH]; intros fout Hidem; [done|].
  assert (Hl : strip R (strip R line) = strip R line) by (apply Hidem; by left).
  assert (Hf : forall l, l ∈ f -> strip R (strip R l) = strip R l)
    by (intros l Hin; apply Hidem; by right).
  rewrite valid_records_cons. unfold stripped_lines in *. cbn [List.filter].
  destruct (nonempty (strip R line)) eqn:Hnb.
  - cbn [map List.filter]. rewrite Hl, Hnb. cbn [map].
    rewrite valid_records_cons, Hl, Hnb. cbn [transform_lines]. rewrite Hl, Hnb.
    cbn [negb]. destruct (json_loads R (strip R line)) as [v|e].
    + destruct (IH fout Hf) as (-> & -> & _). split; [done|]. split; [done|].
      destruct (te v) as [t|e]; [|done]. by destruct (IH (fout ++ [json_dumps R t +:+ newline]) Hf)
        as (_ & _ & ->).
    + destruct (IH fout Hf) as (-> & -> & ->). by destruct e.
  - cbn [transform_lines]. rewrite Hnb. cbn [negb]. apply IH, Hf.
Qed.

Lemma whitespace_is_ignored_witness :
  (forall line, line ∈ Sample.mixed_lines ->
     Sample.strip (Sample.strip line) = Sample.strip line)
  /\ stripped_lines Sample.runtime (stripped_lines Sample.runtime Sample.mixed_lines)
     = stripped_lines Sample.runtime Sample.mixed_lines
  /\ valid_records Sample.runtime (stripped_lines Sample.runtime Sample.mixed_lines)
     = valid_records Sample.runtime Sample.mixed_lines
  /\ transform_lines Sample.runtime (Standard.transform_example Sample.runtime)
       (stripped_lines Sample.runtime Sample.mixed_lines) []
     = transform_lines Sample.runtime (Standard.transform_example Sample.runtime)
         Sample.mixed_lines [].
Proof.
  assert (Hidem : forall line, line ∈ Sample.mixed_lines ->
            Sample.strip (Sample.strip line) = Sample.strip line).
  { intros line Hin. unfold Sample.mixed_lines in Hin.
    repeat (apply elem_of_cons in Hin as [->|Hin]; [by vm_compute|]).
    by apply elem_of_nil in Hin. }
  split; [exact Hidem|].
  exact (whitespace_is_ignored Sample.runtime (Standard.transform_example Sample.runtime)
           Sample.mixed_lines [] Hidem).
Defined.
